(** * HolomorphicMotions: escape-time kernels, grid samplers and viewer

    A shallow embedding of [HolomorphicMotions.py]: the two escape-time
    evaluators [mandelbrot] and [julia_boundary], the two grid samplers
    [mandelbrot_set] and [julia_set_boundary], and the class
    [MandelbrotJuliaApp].

    The Python integers ([max_iter], [width], [height], the loop counter and
    the evaluators' results) are modelled as [Z].  The float64 scalars and
    the complex128 values built from them are kept behind the interface
    [Arith]: every statement that depends on the control flow only is proved
    for an arbitrary implementation of that interface.  The interface has
    two implementations here.  [B64Arith] is IEEE binary64, the arithmetic
    of the program: statements that depend on rounding, and the runs that
    show what rounding does, are about it.  [QcArith] is the exact
    arithmetic of the rationals, which is not the program's: it serves to
    run the control flow on small inputs and to say what holds of the
    mathematical map. *)

From Stdlib Require Import ZArith QArith Qcanon List Lia Lqa Bool Field.
From Stdlib Require Import SpecFloat.
From stdpp Require Import base option list.
Import ListNotations.

Local Open Scope Z_scope.

(** ** The arithmetic interface *)

(** The scalar operations the program uses on float64 values.  [of_int] is
    the conversion of a Python int to a float (as in [start * 1.0] or in the
    comparison [abs(z) > 2]); [hypot_gt x y r] is the test [abs(complex(x, y)) > r],
    the magnitude of a complex number being [hypot(x, y)]. *)
Class Arith : Type := {
  float : Type;
  of_int : Z -> float;
  add : float -> float -> float;
  sub : float -> float -> float;
  mul : float -> float -> float;
  div : float -> float -> float;
  hypot_gt : float -> float -> float -> bool
}.

(** ** Errors *)

(** The exceptions that can leave a sampler: [ValueError] from an allocation
    with a negative dimension, [IndexError] from an index out of bounds. *)
Inductive error : Type := ValueError | IndexError.

Inductive result (T : Type) : Type :=
| Ok (v : T)
| Raise (e : error).
Arguments Ok {T} v.
Arguments Raise {T} e.

#[global] Instance result_ret : MRet result := fun T v => Ok v.

#[global] Instance result_bind : MBind result := fun T U k r =>
  match r with
  | Ok v => k v
  | Raise e => Raise e
  end.

(** [range(n)]: the integers [0, 1, ..., n-1]; empty when [n <= 0]. *)
Definition range (n : Z) : list Z := map Z.of_nat (seq 0 (Z.to_nat n)).

(** A [for] loop over a list of indices whose body updates a state and may
    raise. *)
Fixpoint for_in {S : Type} (ns : list Z) (body : Z -> S -> result S) (s : S)
  : result S :=
  match ns with
  | [] => Ok s
  | n :: ns' => s' ← body n s; for_in ns' body s'
  end.

(** ** Arrays *)

(** A store into a [uint32] array keeps the low 32 bits. *)
Definition uint32 (v : Z) : Z := v mod 2 ^ 32.

(** The position an index [i] denotes in an array of length [len]: a
    negative index counts from the end, an index outside the array denotes
    nothing. *)
Definition index (len : nat) (i : Z) : option nat :=
  let k := if i <? 0 then i + Z.of_nat len else i in
  if (0 <=? k) && (k <? Z.of_nat len) then Some (Z.to_nat k) else None.

(** [l[i]] *)
Definition getitem {T : Type} (l : list T) (i : Z) : result T :=
  match index (length l) i with
  | Some k =>
      match l !! k with
      | Some x => Ok x
      | None => Raise IndexError
      end
  | None => Raise IndexError
  end.

(** A two-dimensional [uint32] array, as the list of its rows. *)
Abbreviation array2 := (list (list Z)).

(** [np.empty((height, width), dtype=np.uint32)]: a fresh array whose cells
    hold whatever the memory held, here [junk i j]. *)
Definition np_empty (junk : nat -> nat -> Z) (height width : Z) : result array2 :=
  if (height <? 0) || (width <? 0) then Raise ValueError
  else Ok (map (fun i => map (fun j => junk i j) (seq 0 (Z.to_nat width)))
               (seq 0 (Z.to_nat height))).

(** [img[i, j] = v] *)
Definition setitem (img : array2) (i j : Z) (v : Z) : result array2 :=
  match index (length img) i with
  | Some ki =>
      match img !! ki with
      | Some row =>
          match index (length row) j with
          | Some kj => Ok (<[ki := <[kj := uint32 v]> row]> img)
          | None => Raise IndexError
          end
      | None => Raise IndexError
      end
  | None => Raise IndexError
  end.

(** The content of cell [(i, j)], when the array has one. *)
Definition cell (img : array2) (i j : nat) : option Z :=
  match img !! i with
  | Some row => row !! j
  | None => None
  end.

(** [img] has [h] rows of [w] columns each. *)
Definition shape (h w : nat) (img : array2) : Prop :=
  length img = h /\ Forall (fun row => length row = w) img.

Section Kernel.
Context {A : Arith}.

(** *** Complex numbers *)

Record complex : Type := Complex { real : float; imag : float }.

Definition zero : float := of_int 0.

(** The initial iterate [z = 0]. *)
Definition czero : complex := Complex zero zero.

Definition cadd (z w : complex) : complex :=
  Complex (add (real z) (real w)) (add (imag z) (imag w)).

Definition cmul (z w : complex) : complex :=
  Complex (sub (mul (real z) (real w)) (mul (imag z) (imag w)))
          (add (mul (real z) (imag w)) (mul (imag z) (real w))).

(** [abs(z) > r] for an integer bound [r]. *)
Definition abs_gt (z : complex) (r : Z) : bool :=
  hypot_gt (real z) (imag z) (of_int r).

(** One update of the iterate: [z = z * z + c]. *)
Definition step (c z : complex) : complex := cadd (cmul z z) c.

(** *** mandelbrot *)

(** The body of [for n in range(max_iter)]: [Some n] when the loop is left
    by [return n], [None] when the range is exhausted. *)
Fixpoint mandelbrot_for (c z : complex) (ns : list Z) : option Z :=
  match ns with
  | [] => None
  | n :: ns' =>
      if abs_gt z 2 then Some n
      else mandelbrot_for c (step c z) ns'
  end.

Definition mandelbrot (c : complex) (max_iter : Z) : Z :=
  match mandelbrot_for c czero (range max_iter) with
  | Some n => n
  | None => max_iter
  end.

(** *** julia_boundary *)

Fixpoint julia_boundary_for (c z : complex) (ns : list Z) : option Z :=
  match ns with
  | [] => None
  | n :: ns' =>
      if abs_gt z 2 then Some n
      else julia_boundary_for c (step c z) ns'
  end.

Definition julia_boundary (c z : complex) (max_iter : Z) : Z :=
  match julia_boundary_for c z (range max_iter) with
  | Some n => n
  | None => -1
  end.

(** *** The grids *)

(** Modelled from the spec: [np.linspace] is library code, not part of this
    repository.  Section 4.2 of the specification gives the samples as
    [start + i * (stop - start) / (num - 1)].  Inside a function compiled
    with [parallel=True] the call runs numba's parallel version of the
    function, which allocates [num] cells and fills cell [i] with
    [start + delta * (i / div)], where [delta = stop - start] and
    [div = num - 1]: the same number in exact arithmetic, and the form kept
    here.  Nothing stores [stop] itself; for [num = 1] the quotient is
    [0 / 0]; for [num = 0] there is no cell; a negative [num] is refused,
    with a [ValueError], when the cells are allocated. *)
Definition linspace (start stop : float) (num : Z) : result (list float) :=
  if num <? 0 then Raise ValueError
  else
    let d := num - 1 in
    let delta := sub stop start in
    Ok (map (fun i => add start (mul delta (div (of_int i) (of_int d))))
            (range num)).

(** What the memory behind a fresh array holds. *)
Variable junk : nat -> nat -> Z.

(** *** mandelbrot_set *)

(** The two [prange] loops write disjoint cells and share nothing else;
    they are run in index order. *)
Definition mandelbrot_set (xmin xmax ymin ymax : float)
    (width height max_iter : Z)
  : result (list float * list float * array2) :=
  r1 ← linspace xmin xmax width;
  r2 ← linspace ymin ymax height;
  img ← np_empty junk height width;
  img ← for_in (range height) (fun i img =>
           for_in (range width) (fun j img =>
             x ← getitem r1 j;
             y ← getitem r2 i;
             let c := Complex x y in
             setitem img i j (mandelbrot c max_iter)) img) img;
  Ok (r1, r2, img).

(** *** julia_set_boundary *)

Definition julia_set_boundary (c : complex) (xmin xmax ymin ymax : float)
    (width height max_iter : Z)
  : result (list float * list float * array2) :=
  r1 ← linspace xmin xmax width;
  r2 ← linspace ymin ymax height;
  img ← np_empty junk height width;
  img ← for_in (range height) (fun i img =>
           for_in (range width) (fun j img =>
             x ← getitem r1 j;
             y ← getitem r2 i;
             let z := Complex x y in
             let result := julia_boundary c z max_iter in
             if 0 <=? result then setitem img i j result
             else setitem img i j 0) img) img;
  Ok (r1, r2, img).

End Kernel.

Arguments complex : clear implicits.
Arguments Complex {A} real imag.

(** ** Binary64 *)

(** IEEE binary64 as the Standard Library specifies it: the operations of
    [SpecFloat] at precision 53 with the exponent bound 1024, every result
    rounded to nearest, ties to even.  A Python int is converted by
    rounding. *)
Definition b64_of_int (n : Z) : spec_float := binary_normalize 53 1024 n 0 false.

(** The sum of the squares of two finite numbers, not rounded, as a
    mantissa and an exponent. *)
Definition sum_of_squares (mx : positive) (ex : Z) (my : positive) (ey : Z)
  : positive * Z :=
  let e := Z.min (2 * ex) (2 * ey) in
  ((fst (shl_align (mx * mx) (2 * ex) e)
    + fst (shl_align (my * my) (2 * ey) e))%positive, e).

(** [hypot(x, y)], the magnitude of [complex(x, y)], as a correctly
    rounded [hypot] returns it: the square root of the sum of the squares,
    rounded once; infinite when an argument is, also beside a NaN. *)
Definition b64_hypot (x y : spec_float) : spec_float :=
  match x, y with
  | S754_infinity _, _ | _, S754_infinity _ => S754_infinity false
  | S754_nan, _ | _, S754_nan => S754_nan
  | S754_zero _, _ => SFabs y
  | _, S754_zero _ => SFabs x
  | S754_finite _ mx ex, S754_finite _ my ey =>
      let '(m, e) := sum_of_squares mx ex my ey in
      SFsqrt 53 1024 (S754_finite false m e)
  end.

(** A comparison with a NaN is false. *)
Definition b64_hypot_gt (x y r : spec_float) : bool :=
  SFltb r (b64_hypot x y).

Definition B64Arith : Arith := {|
  float := spec_float;
  of_int := b64_of_int;
  add := SFadd 53 1024;
  sub := SFsub 53 1024;
  mul := SFmul 53 1024;
  div := SFdiv 53 1024;
  hypot_gt := b64_hypot_gt
|}.

(** The float that the literal of the fraction [n / d] denotes, for
    fractions such as [1.8 = 18 / 10]: the quotient rounded once. *)
Definition f64 (n d : Z) : spec_float :=
  SFdiv 53 1024 (b64_of_int n) (b64_of_int d).

Definition nan : spec_float := S754_nan.

Definition is_zero (a : spec_float) : bool :=
  match a with
  | S754_zero _ => true
  | _ => false
  end.

(** [b] has the magnitude of [a] and the other sign, or both are zeros. *)
Definition mirrored (a b : spec_float) : Prop :=
  b = SFopp a \/ (is_zero a = true /\ is_zero b = true).

(** ** Exact arithmetic *)

(** The rationals in canonical form: every operation is exact, and
    [hypot(x, y) > r] is decided without a square root.  This is not the
    arithmetic of the program: what is proved of it holds of the program
    where no operation rounds. *)
Definition Qc_ltb (x y : Qc) : bool :=
  match (x ?= y)%Qc with
  | Lt => true
  | _ => false
  end.

Definition Qc_of_int (n : Z) : Qc := Q2Qc (inject_Z n).

Definition Qc_hypot_gt (x y r : Qc) : bool :=
  Qc_ltb r (Qc_of_int 0) || Qc_ltb (r * r)%Qc (x * x + y * y)%Qc.

#[global] Instance QcArith : Arith := {|
  float := Qc;
  of_int := Qc_of_int;
  add := Qcplus;
  sub := Qcminus;
  mul := Qcmult;
  div := Qcdiv;
  hypot_gt := Qc_hypot_gt
|}.

(** The rational [n / d], and a memory that holds sevens, for running the
    program on concrete inputs. *)
Definition q (n : Z) (d : positive) : Qc := Q2Qc (n # d).

Definition sevens : nat -> nat -> Z := fun _ _ => 7.

(** The image and the samples a sampler returned, the latter as plain
    fractions. *)
Definition image_of {F : Type} (r : result (list F * list F * array2))
  : option array2 :=
  match r with
  | Ok (_, _, img) => Some img
  | Raise _ => None
  end.

Definition samples_of (r : result (list Qc * list Qc * array2))
  : option (list Q * list Q) :=
  match r with
  | Ok (r1, r2, _) => Some (map this r1, map this r2)
  | Raise _ => None
  end.

(** The parameter [3 + 0i] and the origin. *)
Definition three : complex QcArith := Complex (q 3 1) (q 0 1).

Definition origin : complex QcArith := Complex (q 0 1) (q 0 1).

(** ** Vocabulary of the statements *)

(** The iterate after [k] completed updates, started at [z]. *)
Fixpoint orbit {A : Arith} (c z : complex A) (k : nat) : complex A :=
  match k with
  | O => z
  | S k' => orbit c (step c z) k'
  end.

(** [img'] is [img] with [v] in cell [(i, j)]. *)
Definition writes (h w i j : nat) (v : Z) (img img' : array2) : Prop :=
  shape h w img' /\
  cell img' i j = Some v /\
  forall i' j', i' <> i \/ j' <> j -> cell img' i' j' = cell img i' j'.

(** What a cell of [julia_set_boundary] holds for an evaluator result:
    the result itself, or 0 for the result -1. *)
Definition julia_pixel (result : Z) : Z :=
  if 0 <=? result then result else 0.

(** What the statements about the iterate 0 need of the arithmetic: the
    product and the difference of zeros are zero, adding to zero changes
    nothing, and the magnitude of zero does not exceed 2.  Exact arithmetic
    has these laws; so has binary64, the third up to the sign of a zero. *)
Class ZeroLaws (A : Arith) : Prop := {
  mul_zero_zero : mul zero zero = zero;
  sub_zero_zero : sub zero zero = zero;
  add_zero_l : forall x : float, add zero x = x;
  hypot_zero : hypot_gt zero zero (of_int 2) = false
}.

(** The sample of index [j] as [linspace] computes it:
    [start + (stop - start) * (j / (num - 1))]. *)
Definition sample {A : Arith} (start stop : float) (num : Z) (j : nat)
  : float :=
  add start (mul (sub stop start)
                 (div (of_int (Z.of_nat j)) (of_int (num - 1)))).

(** The sample of index [j] as section 4.2 of the specification writes it:
    [start + j * (stop - start) / (num - 1)]. *)
Definition spec_sample (start stop : Qc) (num : Z) (j : nat) : Qc :=
  (start + Qc_of_int (Z.of_nat j) * (stop - start) / Qc_of_int (num - 1))%Qc.

(** ** The viewer *)

(** The class [MandelbrotJuliaApp].  Of matplotlib the model keeps the
    calls the methods make on the two plots and on the canvas, in the order
    in which they make them; what the library does with them is not
    modelled.  The creation of the window, of the figure and of the canvas
    at the head of [__init__] is not recorded. *)
Module MandelbrotJuliaApp.

(** The left plot [ax1] shows the Mandelbrot set, the right plot [ax2] the
    Julia set. *)
Inductive axes : Type := ax1 | ax2.

Inductive cmap : Type := magma.

Inductive event_name : Type := button_press_event | motion_notify_event.

(** The bound methods handed to [mpl_connect]. *)
Inductive callback : Type := self_onclick | self_onmotion.

(** What can leave a method: an exception of a sampler, or the [TypeError]
    of [complex(x, y)] on an argument that is [None]. *)
Inductive exn : Type := Sampler (e : error) | TypeError.

Section App.
Context {A : Arith}.

Inductive title : Type :=
| Mandelbrot_Set
| Julia_Set_for (c : complex A).

Inductive call : Type :=
| clear (ax : axes)
| imshow (ax : axes) (img : array2)
    (extent : float * float * float * float) (cm : cmap)
| set_title (ax : axes) (t : title)
| draw
| mpl_connect (name : event_name) (f : callback).

(** A mouse event: the plot under the pointer, if any, and the pointer's
    data coordinates, each of which can be [None]. *)
Record event : Type := Event {
  inaxes : option axes;
  xdata : option float;
  ydata : option float
}.

(** The attributes the methods read and write. *)
Record app : Type := App {
  max_iter : Z;
  max_iter_mandel : Z;
  width : Z;
  height : Z;
  xmin : float;
  xmax : float;
  ymin : float;
  ymax : float;
  c : complex A
}.

(** [self.c = c'] *)
Definition set_c (self : app) (c' : complex A) : app :=
  {| max_iter := max_iter self; max_iter_mandel := max_iter_mandel self;
     width := width self; height := height self;
     xmin := xmin self; xmax := xmax self;
     ymin := ymin self; ymax := ymax self;
     c := c' |}.

(** The object and the calls made so far, the oldest first. *)
Record viewer : Type := Viewer { self : app; gui : list call }.

(** A method runs to its end or to an exception; either way it leaves a
    viewer behind. *)
Definition run : Type := option exn * viewer.

Definition and_then (r : run) (k : viewer -> run) : run :=
  match r with
  | (None, v) => k v
  | (Some e, v) => (Some e, v)
  end.

Definition called (v : viewer) (cs : list call) : run :=
  (None, Viewer (self v) (gui v ++ cs)).

(** What the memory behind a fresh array holds. *)
Variable junk : nat -> nat -> Z.

Definition update_mandelbrot (v : viewer) : run :=
  let s := self v in
  match mandelbrot_set junk (xmin s) (xmax s) (ymin s) (ymax s)
          (width s) (height s) (max_iter_mandel s) with
  | Raise e => (Some (Sampler e), v)
  | Ok (r1, r2, img) =>
      called v [clear ax1;
                imshow ax1 img (xmin s, xmax s, ymin s, ymax s) magma;
                set_title ax1 Mandelbrot_Set]
  end.

Definition update_julia (v : viewer) : run :=
  let s := self v in
  let center_x := of_int 0 in
  let center_y := of_int 0 in
  let extent := of_int 2 in
  match julia_set_boundary junk (c s)
          (sub center_x extent) (add center_x extent)
          (sub center_y extent) (add center_y extent)
          (width s) (height s) (max_iter s) with
  | Raise e => (Some (Sampler e), v)
  | Ok (r1, r2, img) =>
      called v [clear ax2;
                imshow ax2 img
                  (sub center_x extent, add center_x extent,
                   sub center_y extent, add center_y extent) magma;
                set_title ax2 (Julia_Set_for (c s))]
  end.

(** [__init__], from the first assignment of an attribute on.  The float
    literals are dyadic: [-2.5] is [-5 / 2] and [1.5] is [3 / 2]. *)
Definition init : run :=
  let s := {| max_iter := 1000; max_iter_mandel := 5000;
              width := 800; height := 800;
              xmin := div (of_int (-5)) (of_int 2);
              xmax := div (of_int 3) (of_int 2);
              ymin := of_int (-2); ymax := of_int 2;
              c := Complex (of_int 0) (of_int 0) |} in
  and_then (update_mandelbrot (Viewer s [])) (fun v =>
  and_then (update_julia v) (fun v =>
  called v [draw;
            mpl_connect button_press_event self_onclick;
            mpl_connect motion_notify_event self_onmotion])).

Definition onclick (v : viewer) (ev : event) : run :=
  match inaxes ev with
  | Some ax1 =>
      match xdata ev, ydata ev with
      | Some x, Some y =>
          let v := Viewer (set_c (self v) (Complex x y)) (gui v) in
          and_then (update_julia v) (fun v => called v [draw])
      | _, _ => (Some TypeError, v)
      end
  | _ => (None, v)
  end.

Definition onmotion (v : viewer) (ev : event) : run :=
  match inaxes ev with
  | Some ax1 =>
      match xdata ev, ydata ev with
      | Some x, Some y =>
          let v := Viewer (set_c (self v) (Complex x y)) (gui v) in
          and_then (update_julia v) (fun v => called v [draw])
      | _, _ => (None, v)
      end
  | _ => (None, v)
  end.

End App.

Arguments title : clear implicits.
Arguments call : clear implicits.
Arguments event : clear implicits.
Arguments app : clear implicits.
Arguments viewer : clear implicits.
Arguments run : clear implicits.

End MandelbrotJuliaApp.

(** *** Vocabulary of the statements about the viewer *)

Section Screen.
Import MandelbrotJuliaApp.
Context {A : Arith}.

(** The images of the two plots. *)
Definition plots : Type := option array2 * option array2.

(** The plots as they are, and as they were when the canvas was last
    drawn: [clear] empties a plot, [imshow] puts an image on it, [draw]
    brings the canvas up to date. *)
Definition render (st : plots * plots) (k : call A) : plots * plots :=
  let '(now, drawn) := st in
  match k with
  | clear ax1 => ((None, snd now), drawn)
  | clear ax2 => ((fst now, None), drawn)
  | imshow ax1 img _ _ => ((Some img, snd now), drawn)
  | imshow ax2 img _ _ => ((fst now, Some img), drawn)
  | draw => (now, now)
  | _ => st
  end.

Definition on_canvas (cs : list (call A)) : plots :=
  snd (fold_left render cs ((None, None), (None, None))).

(** A call that leaves the left plot alone. *)
Definition spares_ax1 (k : call A) : bool :=
  match k with
  | clear ax1 | imshow ax1 _ _ _ | set_title ax1 _ => false
  | _ => true
  end.

(** A call of one of the two handlers. *)
Inductive handled : Type :=
| click (ev : event A)
| motion (ev : event A).

Definition handle (junk : nat -> nat -> Z) (v : viewer A) (h : handled)
  : run A :=
  match h with
  | click ev => onclick junk v ev
  | motion ev => onmotion junk v ev
  end.

(** The viewer after the handlers were called in turn, each one running
    to its end or to its exception. *)
Definition after (junk : nat -> nat -> Z) (v : viewer A) (hs : list handled)
  : viewer A :=
  fold_left (fun v h => snd (handle junk v h)) hs v.

End Screen.

(** A small viewer over exact arithmetic, for running the handlers. *)
Definition small_app : MandelbrotJuliaApp.app QcArith :=
  {| MandelbrotJuliaApp.max_iter := 3;
     MandelbrotJuliaApp.max_iter_mandel := 3;
     MandelbrotJuliaApp.width := 2; MandelbrotJuliaApp.height := 2;
     MandelbrotJuliaApp.xmin := q (-2) 1; MandelbrotJuliaApp.xmax := q 1 1;
     MandelbrotJuliaApp.ymin := q (-1) 1; MandelbrotJuliaApp.ymax := q 1 1;
     MandelbrotJuliaApp.c := origin |}.

Definition small_viewer : MandelbrotJuliaApp.viewer QcArith :=
  MandelbrotJuliaApp.Viewer small_app [].

(** ** The loops of the evaluators *)

Section Evaluators.
Context {A : Arith}.
Implicit Types (c z : complex A) (ns : list Z).

Lemma orbit_S c z k : orbit c z (S k) = step c (orbit c z k).
Proof.
  revert z; induction k as [|k IH]; intros z; [reflexivity|].
  change (orbit c z (S (S k))) with (orbit c (step c z) (S k)).
  now rewrite IH.
Qed.

(** Both evaluators run the same loop. *)
Lemma mandelbrot_for_julia c z ns :
  mandelbrot_for c z ns = julia_boundary_for c z ns.
Proof.
  revert z; induction ns as [|n ns IH]; intros z; simpl; [reflexivity|].
  destruct (abs_gt z 2); [reflexivity|apply IH].
Qed.

(** The loop over the counters [a, a+1, ..., a+n-1] returns the first
    counter at which the magnitude test succeeds. *)
Lemma julia_for_escape c n : forall a z k,
  (k < n)%nat ->
  (forall i, (i < k)%nat -> abs_gt (orbit c z i) 2 = false) ->
  abs_gt (orbit c z k) 2 = true ->
  julia_boundary_for c z (map Z.of_nat (seq a n)) = Some (Z.of_nat (a + k)).
Proof.
  induction n as [|n IH]; intros a z k Hk Hlow Hesc; [lia|].
  simpl. destruct k as [|k].
  - simpl in Hesc. rewrite Hesc. now rewrite Nat.add_0_r.
  - assert (H0 : abs_gt z 2 = false) by (apply (Hlow O); lia).
    rewrite H0.
    rewrite (IH (S a) (step c z) k); [f_equal; lia|lia| |exact Hesc].
    intros i Hi. apply (Hlow (S i)). lia.
Qed.

Lemma julia_for_exhausted c n : forall a z,
  (forall i, (i < n)%nat -> abs_gt (orbit c z i) 2 = false) ->
  julia_boundary_for c z (map Z.of_nat (seq a n)) = None.
Proof.
  induction n as [|n IH]; intros a z Hlow; [reflexivity|].
  assert (H0 : abs_gt z 2 = false) by (apply (Hlow O); lia).
  simpl. rewrite H0.
  apply IH. intros i Hi. apply (Hlow (S i)). lia.
Qed.

(** A counter returned from inside the loop is one of the range. *)
Lemma julia_for_counter c n : forall a z v,
  julia_boundary_for c z (map Z.of_nat (seq a n)) = Some v ->
  Z.of_nat a <= v < Z.of_nat (a + n).
Proof.
  induction n as [|n IH]; intros a z v; simpl; [discriminate|].
  destruct (abs_gt z 2).
  - intros [= <-]. lia.
  - intros H. apply IH in H. lia.
Qed.

(** With a budget below one the loop body never runs. *)
Lemma range_nonpos m : m <= 0 -> range m = [].
Proof.
  intros H. unfold range. now replace (Z.to_nat m) with O by lia.
Qed.

Lemma mandelbrot_julia_escaped c m n :
  julia_boundary_for c czero (range m) = Some n ->
  julia_boundary c czero m = n /\ mandelbrot c m = n.
Proof.
  intros H. pose proof (mandelbrot_for_julia c czero (range m)) as E.
  rewrite H in E. unfold julia_boundary, mandelbrot.
  now rewrite E, H.
Qed.

Lemma mandelbrot_julia_exhausted c m :
  julia_boundary_for c czero (range m) = None ->
  julia_boundary c czero m = -1 /\ mandelbrot c m = m.
Proof.
  intros H. pose proof (mandelbrot_for_julia c czero (range m)) as E.
  rewrite H in E. unfold julia_boundary, mandelbrot.
  now rewrite E, H.
Qed.

End Evaluators.

(** ** Arrays and loops over them *)

Section Arrays.

Lemma index_of_nat (len k : nat) :
  (k < len)%nat -> index len (Z.of_nat k) = Some k.
Proof.
  intros H. unfold index.
  destruct (Z.ltb_spec (Z.of_nat k) 0) as [?|_]; [lia|].
  destruct (Z.leb_spec 0 (Z.of_nat k)) as [_|?]; [|lia].
  destruct (Z.ltb_spec (Z.of_nat k) (Z.of_nat len)) as [_|?]; [|lia].
  simpl. now rewrite Nat2Z.id.
Qed.

Lemma getitem_of_nat {T : Type} (l : list T) (k : nat) (x : T) :
  l !! k = Some x -> getitem l (Z.of_nat k) = Ok x.
Proof.
  intros H. unfold getitem.
  rewrite index_of_nat by (eapply lookup_lt_Some; eassumption).
  now rewrite H.
Qed.

Lemma shape_row (h w : nat) (img : array2) (i : nat) (row : list Z) :
  shape h w img -> img !! i = Some row -> length row = w.
Proof.
  intros [_ Hrows] Hi.
  exact (proj1 (Forall_lookup _ _) Hrows i row Hi).
Qed.

Lemma cell_is_Some (h w : nat) (img : array2) (i j : nat) :
  shape h w img -> (i < h)%nat -> (j < w)%nat -> is_Some (cell img i j).
Proof.
  intros Hs Hi Hj. unfold cell.
  destruct (lookup_lt_is_Some_2 img i) as [row Hrow]; [destruct Hs; lia|].
  rewrite Hrow. apply lookup_lt_is_Some_2.
  rewrite (shape_row h w img i row Hs Hrow). exact Hj.
Qed.

Lemma setitem_writes (h w : nat) (img : array2) (i j : nat) (v : Z) :
  shape h w img -> (i < h)%nat -> (j < w)%nat ->
  exists img',
    setitem img (Z.of_nat i) (Z.of_nat j) v = Ok img' /\
    writes h w i j (uint32 v) img img'.
Proof.
  intros Hs Hi Hj. pose proof Hs as [Hlen Hrows].
  destruct (lookup_lt_is_Some_2 img i) as [row Hrow]; [lia|].
  pose proof (shape_row h w img i row Hs Hrow) as Hw.
  unfold setitem. rewrite index_of_nat by lia. rewrite Hrow.
  rewrite index_of_nat by lia.
  eexists; split; [reflexivity|]. repeat split.
  - now rewrite length_insert.
  - apply Forall_insert; [exact Hrows|]. now rewrite length_insert.
  - unfold cell. rewrite list_lookup_insert_eq by lia.
    apply list_lookup_insert_eq. lia.
  - intros i' j' Hne. unfold cell.
    destruct (decide (i' = i)) as [->|Hi'].
    + rewrite list_lookup_insert_eq by lia. rewrite Hrow.
      apply list_lookup_insert_ne. destruct Hne; congruence.
    + now rewrite list_lookup_insert_ne by congruence.
Qed.

(** The inner loop: a body that writes cell [(i, j)] at column [j] fills
    the columns it runs over and leaves the other cells alone. *)
Lemma for_in_columns (h w i : nat) (body : Z -> array2 -> result array2)
    (val : nat -> Z) :
  (forall j img, (j < w)%nat -> shape h w img ->
     exists img', body (Z.of_nat j) img = Ok img' /\
                  writes h w i j (val j) img img') ->
  forall n a img, (a + n <= w)%nat -> shape h w img ->
    exists img',
      for_in (map Z.of_nat (seq a n)) body img = Ok img' /\
      shape h w img' /\
      (forall j, (a <= j < a + n)%nat -> cell img' i j = Some (val j)) /\
      (forall i' j', i' <> i \/ (j' < a)%nat \/ (a + n <= j')%nat ->
         cell img' i' j' = cell img i' j').
Proof.
  intros Hbody. induction n as [|n IH]; intros a img Han Hs.
  - exists img. repeat split; [exact (proj1 Hs)|exact (proj2 Hs)|lia].
  - destruct (Hbody a img) as (img1 & E1 & Hs1 & Hc1 & Ho1); [lia|exact Hs|].
    destruct (IH (S a) img1) as (img2 & E2 & Hs2 & Hc2 & Ho2); [lia|exact Hs1|].
    exists img2. simpl. rewrite E1. simpl. split; [exact E2|].
    split; [exact Hs2|]. split.
    + intros j Hj. destruct (decide (j = a)) as [->|Hne].
      * rewrite Ho2 by lia. exact Hc1.
      * apply Hc2. lia.
    + intros i' j' Hne. rewrite Ho2 by lia. apply Ho1. lia.
Qed.

(** The outer loop: a body that fills row [i] at index [i] fills the whole
    array. *)
Lemma for_in_rows (h w : nat) (body : Z -> array2 -> result array2)
    (val : nat -> nat -> Z) :
  (forall i img, (i < h)%nat -> shape h w img ->
     exists img', body (Z.of_nat i) img = Ok img' /\
       shape h w img' /\
       (forall j, (j < w)%nat -> cell img' i j = Some (val i j)) /\
       (forall i' j', i' <> i -> cell img' i' j' = cell img i' j')) ->
  forall n a img, (a + n <= h)%nat -> shape h w img ->
    exists img',
      for_in (map Z.of_nat (seq a n)) body img = Ok img' /\
      shape h w img' /\
      (forall i j, (a <= i < a + n)%nat -> (j < w)%nat ->
         cell img' i j = Some (val i j)) /\
      (forall i' j', (i' < a)%nat \/ (a + n <= i')%nat ->
         cell img' i' j' = cell img i' j').
Proof.
  intros Hbody. induction n as [|n IH]; intros a img Han Hs.
  - exists img. repeat split; [exact (proj1 Hs)|exact (proj2 Hs)|lia].
  - destruct (Hbody a img) as (img1 & E1 & Hs1 & Hc1 & Ho1); [lia|exact Hs|].
    destruct (IH (S a) img1) as (img2 & E2 & Hs2 & Hc2 & Ho2); [lia|exact Hs1|].
    exists img2. simpl. rewrite E1. simpl. split; [exact E2|].
    split; [exact Hs2|]. split.
    + intros i j Hi Hj. destruct (decide (i = a)) as [->|Hne].
      * rewrite Ho2 by lia. now apply Hc1.
      * apply Hc2; lia.
    + intros i' j' Hne. rewrite Ho2 by lia. apply Ho1. lia.
Qed.

Lemma np_empty_shape (junk : nat -> nat -> Z) (height width : Z) :
  0 <= height -> 0 <= width ->
  exists img, np_empty junk height width = Ok img /\
              shape (Z.to_nat height) (Z.to_nat width) img.
Proof.
  intros Hh Hw. unfold np_empty.
  destruct (Z.ltb_spec height 0); [lia|].
  destruct (Z.ltb_spec width 0); [lia|].
  eexists; split; [reflexivity|]. split.
  - now rewrite length_map, length_seq.
  - apply Forall_forall. intros row Hin.
    apply list_elem_of_In, in_map_iff in Hin. destruct Hin as (i & <- & _).
    now rewrite length_map, length_seq.
Qed.

Lemma np_empty_negative (junk : nat -> nat -> Z) (height width : Z) :
  height < 0 \/ width < 0 -> np_empty junk height width = Raise ValueError.
Proof.
  intros H. unfold np_empty.
  destruct (Z.ltb_spec height 0); [reflexivity|].
  destruct (Z.ltb_spec width 0); [reflexivity|lia].
Qed.

End Arrays.

(** ** The grid samplers *)

Section Samplers.
Context {A : Arith}.
Variable junk : nat -> nat -> Z.

Lemma linspace_negative (start stop : float) (num : Z) :
  num < 0 -> linspace start stop num = Raise ValueError.
Proof.
  intros H. unfold linspace. now destruct (Z.ltb_spec num 0); [|lia].
Qed.

Lemma length_range (n : Z) : length (range n) = Z.to_nat n.
Proof. unfold range. now rewrite length_map, length_seq. Qed.

Lemma linspace_length (start stop : float) (num : Z) :
  0 <= num ->
  exists r, linspace start stop num = Ok r /\ length r = Z.to_nat num.
Proof.
  intros H. unfold linspace.
  destruct (Z.ltb_spec num 0); [lia|].
  eexists; split; [reflexivity|].
  now rewrite length_map, length_range.
Qed.

Lemma lookup_map {X Y : Type} (f : X -> Y) (l : list X) (i : nat) :
  map f l !! i = option_map f (l !! i).
Proof.
  revert i; induction l as [|x l IH]; intros [|i]; simpl; auto.
Qed.

Lemma lookup_range (n : Z) (i : nat) :
  (i < Z.to_nat n)%nat -> range n !! i = Some (Z.of_nat i).
Proof.
  intros H. unfold range. rewrite lookup_map, lookup_seq_lt by exact H.
  reflexivity.
Qed.

(** Every sample is computed by the same formula, the first and the last
    one too. *)
Lemma linspace_lookup (start stop : float) (num : Z) (r : list float)
    (j : nat) :
  (j < Z.to_nat num)%nat ->
  linspace start stop num = Ok r ->
  r !! j = Some (sample start stop num j).
Proof.
  intros Hj E. unfold linspace in E.
  destruct (Z.ltb_spec num 0); [lia|].
  injection E as <-.
  rewrite lookup_map, lookup_range by exact Hj. reflexivity.
Qed.

(** The two nested loops of a sampler whose body stores [pixel x y] for
    the sample [(x, y) = (r1[j], r2[i])]. *)
Lemma sampler_loops (pixel : float -> float -> Z) (r1 r2 : list float)
    (body : Z -> Z -> array2 -> result array2) (img : array2) :
  (forall i j img,
     body i j img =
     x ← getitem r1 j; y ← getitem r2 i; setitem img i j (pixel x y)) ->
  shape (length r2) (length r1) img ->
  exists img',
    for_in (map Z.of_nat (seq 0 (length r2)))
      (fun i img =>
         for_in (map Z.of_nat (seq 0 (length r1)))
           (fun j img => body i j img) img) img = Ok img' /\
    shape (length r2) (length r1) img' /\
    forall i j x y, r1 !! j = Some x -> r2 !! i = Some y ->
      cell img' i j = Some (uint32 (pixel x y)).
Proof.
  intros Hbody Hs.
  set (val := fun i j : nat =>
    match r1 !! j, r2 !! i with
    | Some x, Some y => uint32 (pixel x y)
    | _, _ => 0
    end).
  destruct (for_in_rows (length r2) (length r1)
              (fun i img =>
                 for_in (map Z.of_nat (seq 0 (length r1)))
                   (fun j img => body i j img) img) val)
    with (n := length r2) (a := O) (img := img)
    as (img' & E & Hs' & Hc & _); [|lia|exact Hs|].
  - intros i img0 Hi Hs0.
    destruct (for_in_columns (length r2) (length r1) i
                (fun j img => body (Z.of_nat i) j img) (val i))
      with (n := length r1) (a := O) (img := img0)
      as (img1 & E1 & Hs1 & Hc1 & Ho1); [|lia|exact Hs0|].
    + intros j img2 Hj Hs2.
      destruct (lookup_lt_is_Some_2 r1 j Hj) as [x Hx].
      destruct (lookup_lt_is_Some_2 r2 i Hi) as [y Hy].
      rewrite Hbody, (getitem_of_nat r1 j x Hx), (getitem_of_nat r2 i y Hy).
      simpl. unfold val. rewrite Hx, Hy.
      now apply setitem_writes.
    + exists img1. split; [exact E1|]. split; [exact Hs1|]. split.
      * intros j Hj. apply Hc1. lia.
      * intros i' j' Hne. apply Ho1. now left.
  - exists img'. split; [exact E|]. split; [exact Hs'|].
    intros i j x y Hx Hy.
    rewrite Hc by (first [eapply lookup_lt_Some; eassumption
                         |split; [lia|eapply lookup_lt_Some; eassumption]]).
    unfold val. now rewrite Hx, Hy.
Qed.

Lemma mandelbrot_set_spec (xmin xmax ymin ymax : float)
    (width height max_iter : Z) :
  0 <= width -> 0 <= height ->
  exists r1 r2 img,
    linspace xmin xmax width = Ok r1 /\
    linspace ymin ymax height = Ok r2 /\
  length r1 = Z.to_nat width /\ length r2 = Z.to_nat height /\
    mandelbrot_set junk xmin xmax ymin ymax width height max_iter
      = Ok (r1, r2, img) /\
    shape (Z.to_nat height) (Z.to_nat width) img /\
    forall i j x y, r1 !! j = Some x -> r2 !! i = Some y ->
      cell img i j = Some (uint32 (mandelbrot (Complex x y) max_iter)).
Proof.
  intros Hw Hh.
  destruct (linspace_length xmin xmax width Hw) as (r1 & E1 & L1).
  destruct (linspace_length ymin ymax height Hh) as (r2 & E2 & L2).
  destruct (np_empty_shape junk height width Hh Hw) as (img0 & E0 & Hs0).
  rewrite <- L1, <- L2 in Hs0.
  destruct (sampler_loops
              (fun x y => mandelbrot (Complex x y) max_iter) r1 r2
              (fun i j img =>
                 x ← getitem r1 j; y ← getitem r2 i;
                 setitem img i j (mandelbrot (Complex x y) max_iter)) img0)
    as (img & E & Hs & Hc); [reflexivity|exact Hs0|].
  exists r1, r2, img. split; [exact E1|]. split; [exact E2|].
  split; [exact L1|]. split; [exact L2|].
  rewrite <- L1, <- L2. split; [|split; [exact Hs|exact Hc]].
  unfold mandelbrot_set. rewrite E1, E2. simpl. rewrite E0. simpl.
  unfold range. rewrite <- L1, <- L2.
  change (for_in (map Z.of_nat (seq 0 (length r2)))
            (fun i img1 => for_in (map Z.of_nat (seq 0 (length r1)))
               (fun j img2 =>
                  x ← getitem r1 j; y ← getitem r2 i;
                  setitem img2 i j (mandelbrot (Complex x y) max_iter))
               img1) img0 ≫= (fun img1 => Ok (r1, r2, img1))
          = Ok (r1, r2, img)).
  now rewrite E.
Qed.

Lemma julia_set_boundary_spec (c : complex A) (xmin xmax ymin ymax : float)
    (width height max_iter : Z) :
  0 <= width -> 0 <= height ->
  exists r1 r2 img,
    linspace xmin xmax width = Ok r1 /\
    linspace ymin ymax height = Ok r2 /\
  length r1 = Z.to_nat width /\ length r2 = Z.to_nat height /\
    julia_set_boundary junk c xmin xmax ymin ymax width height max_iter
      = Ok (r1, r2, img) /\
    shape (Z.to_nat height) (Z.to_nat width) img /\
    forall i j x y, r1 !! j = Some x -> r2 !! i = Some y ->
      cell img i j =
      Some (uint32 (julia_pixel (julia_boundary c (Complex x y) max_iter))).
Proof.
  intros Hw Hh.
  destruct (linspace_length xmin xmax width Hw) as (r1 & E1 & L1).
  destruct (linspace_length ymin ymax height Hh) as (r2 & E2 & L2).
  destruct (np_empty_shape junk height width Hh Hw) as (img0 & E0 & Hs0).
  rewrite <- L1, <- L2 in Hs0.
  destruct (sampler_loops
              (fun x y => julia_pixel (julia_boundary c (Complex x y) max_iter))
              r1 r2
              (fun i j img =>
                 x ← getitem r1 j; y ← getitem r2 i;
                 let z := Complex x y in
                 let result := julia_boundary c z max_iter in
                 if 0 <=? result then setitem img i j result
                 else setitem img i j 0) img0)
    as (img & E & Hs & Hc); [|exact Hs0|].
  { intros i j img1.
    destruct (getitem r1 j) as [x|e]; [|reflexivity].
    destruct (getitem r2 i) as [y|e]; [|reflexivity].
    simpl. unfold julia_pixel.
    now destruct (0 <=? julia_boundary c (Complex x y) max_iter). }
  exists r1, r2, img. split; [exact E1|]. split; [exact E2|].
  split; [exact L1|]. split; [exact L2|].
  rewrite <- L1, <- L2. split; [|split; [exact Hs|exact Hc]].
  unfold julia_set_boundary. rewrite E1, E2. simpl. rewrite E0. simpl.
  unfold range. rewrite <- L1, <- L2.
  match goal with
  | |- ?loops ≫= _ = _ =>
      replace loops with (Ok img : result array2) by (symmetry; exact E)
  end.
  reflexivity.
Qed.

(** A negative width or height is refused when the samples are
    allocated, before any cell is computed. *)
Lemma mandelbrot_set_negative (xmin xmax ymin ymax : float)
    (width height max_iter : Z) :
  width < 0 \/ height < 0 ->
  mandelbrot_set junk xmin xmax ymin ymax width height max_iter
    = Raise ValueError.
Proof.
  intros H. unfold mandelbrot_set.
  destruct (Z.lt_ge_cases width 0) as [Hw|Hw].
  - rewrite (linspace_negative xmin xmax width) by lia. reflexivity.
  - destruct (linspace_length xmin xmax width) as (r1 & -> & _); [lia|].
    simpl. rewrite (linspace_negative ymin ymax height) by lia. reflexivity.
Qed.

Lemma julia_set_boundary_negative (c : complex A)
    (xmin xmax ymin ymax : float) (width height max_iter : Z) :
  width < 0 \/ height < 0 ->
  julia_set_boundary junk c xmin xmax ymin ymax width height max_iter
    = Raise ValueError.
Proof.
  intros H. unfold julia_set_boundary.
  destruct (Z.lt_ge_cases width 0) as [Hw|Hw].
  - rewrite (linspace_negative xmin xmax width) by lia. reflexivity.
  - destruct (linspace_length xmin xmax width) as (r1 & -> & _); [lia|].
    simpl. rewrite (linspace_negative ymin ymax height) by lia. reflexivity.
Qed.

End Samplers.

(** ** The evaluators: what the loops return *)

Section EvaluatorClaims.
Context {A : Arith}.
Implicit Types (c z : complex A).

(** C1. The evaluator tests the magnitude before each update: when the
  iterate first exceeds 2 after [n] completed updates, with [n] below the
  budget, [n] is returned; otherwise the iterate is replaced by
  [z * z + c].  When the budget is used up without the magnitude exceeding
  2, [julia_boundary] returns -1 and [mandelbrot], which starts at 0,
  returns [max_iter]. *)
Theorem escape_evaluator_loop c z0 (max_iter : Z) :
  (forall n : nat,
     Z.of_nat n < max_iter ->
     (forall k, (k < n)%nat -> abs_gt (orbit c z0 k) 2 = false) ->
     abs_gt (orbit c z0 n) 2 = true ->
     julia_boundary c z0 max_iter = Z.of_nat n /\
     (z0 = czero -> mandelbrot c max_iter = Z.of_nat n)) /\
  ((forall k : nat, Z.of_nat k < max_iter ->
      abs_gt (orbit c z0 k) 2 = false) ->
   julia_boundary c z0 max_iter = -1 /\
   (z0 = czero -> mandelbrot c max_iter = max_iter)) /\
  (forall k, orbit c z0 (S k) = cadd (cmul (orbit c z0 k) (orbit c z0 k)) c).
Proof.
  split; [|split].
  - intros n Hn Hlow Hesc.
    assert (E : julia_boundary_for c z0 (range max_iter) = Some (Z.of_nat n)).
    { unfold range.
      now rewrite (julia_for_escape c (Z.to_nat max_iter) O z0 n) by (lia || assumption). }
    split.
    + unfold julia_boundary. now rewrite E.
    + intros ->. now apply mandelbrot_julia_escaped.
  - intros Hlow.
    assert (E : julia_boundary_for c z0 (range max_iter) = None).
    { unfold range. apply julia_for_exhausted. intros i Hi. apply Hlow. lia. }
    split.
    + unfold julia_boundary. now rewrite E.
    + intros ->. now apply mandelbrot_julia_exhausted.
  - intros k. apply orbit_S.
Qed.

(** What [julia_boundary] returns is -1 or a counter of the range. *)
Lemma julia_boundary_cases c z (max_iter : Z) :
  julia_boundary_for c z (range max_iter) = None /\
    julia_boundary c z max_iter = -1
  \/ exists n, julia_boundary_for c z (range max_iter) = Some n /\
       julia_boundary c z max_iter = n /\ 0 <= n < max_iter.
Proof.
  unfold julia_boundary.
  destruct (julia_boundary_for c z (range max_iter)) as [n|] eqn:E.
  - right. exists n. repeat split; trivial;
      apply julia_for_counter in E; lia.
  - now left.
Qed.

(** C9. Started at 0, [julia_boundary] and [mandelbrot] agree: a count
  returned by the former is returned by the latter, and when the former
  returns -1 the latter returns [max_iter]. *)
Theorem mandelbrot_agrees_with_julia_boundary c (max_iter : Z) :
  (forall n, 0 <= n -> julia_boundary c czero max_iter = n ->
     mandelbrot c max_iter = n) /\
  (julia_boundary c czero max_iter = -1 -> mandelbrot c max_iter = max_iter).
Proof.
  destruct (julia_boundary_cases c czero max_iter)
    as [[E Hj]|(v & E & Hj & Hv)]; rewrite Hj.
  - split; [intros n Hn <-; lia|intros _].
    now apply mandelbrot_julia_exhausted.
  - split; [intros n _ <-|intros ->; lia].
    now apply mandelbrot_julia_escaped.
Qed.

(** The Mandelbrot result lies between 0 and a non-negative budget. *)
Lemma mandelbrot_bounds c (max_iter : Z) :
  0 <= max_iter -> 0 <= mandelbrot c max_iter <= max_iter.
Proof.
  intros Hm.
  destruct (julia_boundary_cases c czero max_iter)
    as [[E Hj]|(v & E & Hj & Hv)].
  - apply mandelbrot_julia_exhausted in E. destruct E as [_ ->]. lia.
  - apply mandelbrot_julia_escaped in E. destruct E as [_ ->]. lia.
Qed.

(** A budget below 1 is returned as it is: the loop body does not run. *)
Lemma mandelbrot_nonpositive_budget c (max_iter : Z) :
  max_iter <= 0 -> mandelbrot c max_iter = max_iter.
Proof.
  intros Hm. unfold mandelbrot. now rewrite (range_nonpos max_iter Hm).
Qed.

End EvaluatorClaims.

(** ** The evaluators at the origin *)

Section Origin.
Context {A : Arith} {L : ZeroLaws A}.
Implicit Types (c z : complex A).

Lemma abs_gt_czero : abs_gt czero 2 = false.
Proof. exact hypot_zero. Qed.

(** The first update, from 0, yields [c]. *)
Lemma step_czero c : step c czero = c.
Proof.
  destruct c as [x y]. unfold step, cadd, cmul, czero. simpl.
  now rewrite mul_zero_zero, sub_zero_zero, !add_zero_l.
Qed.

Lemma range_first (m : Z) :
  1 <= m -> range m = 0 :: map Z.of_nat (seq 1 (Z.to_nat m - 1)).
Proof.
  intros H. unfold range.
  replace (Z.to_nat m) with (S (Z.to_nat m - 1)) at 1 by lia.
  reflexivity.
Qed.


Lemma julia_for_origin (ns : list Z) :
  julia_boundary_for czero czero ns = None.
Proof.
  induction ns as [|n ns IH]; simpl; [reflexivity|].
  now rewrite abs_gt_czero, step_czero.
Qed.


(** C3, as the code has it.  For a parameter that passes the test of the
    program, [abs(c) > 2] as the program computes it, [mandelbrot] returns
    1 for every budget of at least 1: the first test sees 0, the first
    update sets the iterate to [c], and either the second test succeeds
    with counter 1 or the budget 1 is used up. *)
Theorem mandelbrot_outside_disk c (max_iter : Z) :
  abs_gt c 2 = true -> 1 <= max_iter -> mandelbrot c max_iter = 1.
Proof.
  intros Hc Hm. unfold mandelbrot.
  rewrite mandelbrot_for_julia, (range_first max_iter Hm). simpl.
  rewrite abs_gt_czero, step_czero.
  destruct (Z.to_nat max_iter - 1)%nat as [|k] eqn:Ek; simpl.
  - lia.
  - now rewrite Hc.
Qed.

End Origin.

(** ** The grids: what the samplers return *)

Lemma image_of_Some {F : Type} (r : result (list F * list F * array2))
    (img : array2) :
  image_of r = Some img -> exists r1 r2, r = Ok (r1, r2, img).
Proof.
  destruct r as [[[r1 r2] img']|e]; simpl; [|discriminate].
  intros [= ->]. now exists r1, r2.
Qed.

Section SamplerClaims.
Context {A : Arith}.
Variable junk : nat -> nat -> Z.
Implicit Types (c z : complex A).

Lemma cell_Some_lt (h w : nat) (img : array2) (i j : nat) (v : Z) :
  shape h w img -> cell img i j = Some v -> (i < h)%nat /\ (j < w)%nat.
Proof.
  intros Hs Hc. unfold cell in Hc.
  destruct (img !! i) as [row|] eqn:Hrow; [|discriminate].
  pose proof (shape_row h w img i row Hs Hrow) as Hw.
  apply lookup_lt_Some in Hrow. apply lookup_lt_Some in Hc.
  destruct Hs. lia.
Qed.

Lemma uint32_small (v : Z) : 0 <= v < 2 ^ 32 -> uint32 v = v.
Proof. intros H. unfold uint32. now apply Z.mod_small. Qed.

(** C6. For a non-negative budget the result of [mandelbrot] lies in
    [0, max_iter]; and with a budget of 1 every cell of the image that
    [mandelbrot_set] returns holds 0 or 1. *)
Theorem mandelbrot_result_range c (max_iter : Z)
    (xmin xmax ymin ymax : float) (width height : Z)
    (img : array2) (i j : nat) (v : Z) :
  0 <= max_iter ->
  0 <= mandelbrot c max_iter <= max_iter /\
  (image_of (mandelbrot_set junk xmin xmax ymin ymax width height 1)
     = Some img ->
   cell img i j = Some v -> v = 0 \/ v = 1).
Proof.
  intros Hm. split; [now apply mandelbrot_bounds|].
  intros E Hc. apply image_of_Some in E. destruct E as (r1 & r2 & E).
  destruct (Z.lt_ge_cases width 0) as [Hw|Hw];
    [rewrite mandelbrot_set_negative in E by lia; discriminate|].
  destruct (Z.lt_ge_cases height 0) as [Hh|Hh];
    [rewrite mandelbrot_set_negative in E by lia; discriminate|].
  destruct (mandelbrot_set_spec junk xmin xmax ymin ymax width height 1 Hw Hh)
    as (r1' & r2' & img' & _ & _ & L1 & L2 & E' & Hs & Hcells).
  rewrite E in E'. injection E' as <- <- <-.
  destruct (cell_Some_lt _ _ _ _ _ _ Hs Hc) as [Hi Hj].
  destruct (lookup_lt_is_Some_2 r1 j) as [x Hx]; [lia|].
  destruct (lookup_lt_is_Some_2 r2 i) as [y Hy]; [lia|].
  rewrite (Hcells i j x y Hx Hy) in Hc. injection Hc as <-.
  pose proof (mandelbrot_bounds (Complex x y) 1) as Hb.
  rewrite uint32_small by lia. lia.
Qed.

(** C4, as the code has it.  [julia_boundary] returns -1 for a point that
    did not escape, which no count is; [julia_set_boundary] stores 0 in the
    cell of such a point and the count in the cell of a point that escaped,
    so that 0 stands for both "escaped at iteration 0" and "did not
    escape". *)
Theorem julia_cell_encoding c (xmin xmax ymin ymax : float)
    (width height max_iter : Z) :
  0 <= width -> 0 <= height -> max_iter <= 2 ^ 32 ->
  exists r1 r2 img,
    julia_set_boundary junk c xmin xmax ymin ymax width height max_iter
      = Ok (r1, r2, img) /\
    forall i j x y, r1 !! j = Some x -> r2 !! i = Some y ->
      let result := julia_boundary c (Complex x y) max_iter in
      (result = -1 /\ cell img i j = Some 0) \/
      (0 <= result < max_iter /\ cell img i j = Some result).
Proof.
  intros Hw Hh Hm.
  destruct (julia_set_boundary_spec junk c xmin xmax ymin ymax
              width height max_iter Hw Hh)
    as (r1 & r2 & img & _ & _ & _ & _ & E & _ & Hcells).
  exists r1, r2, img. split; [exact E|].
  intros i j x y Hx Hy result. rewrite (Hcells i j x y Hx Hy).
  fold result.
  destruct (julia_boundary_cases c (Complex x y) max_iter)
    as [[_ Hr]|(n & _ & Hr & Hn)]; fold result in Hr; rewrite Hr.
  - left. split; reflexivity.
  - right. split; [exact Hn|]. f_equal.
    unfold julia_pixel. destruct (Z.leb_spec 0 n); [|lia].
    apply uint32_small. lia.
Qed.

(** C5, as the code has it.  The samplers check nothing themselves.  A
    negative width or height is refused, with a [ValueError], when the
    samples are allocated.  Every other call is accepted, whatever the
    order of the bounds of the region, and returns [width] and [height]
    samples and an image of [height] rows and [width] columns; the image has
    no cell when the width or the height is 0. *)
Theorem samplers_do_not_validate c (xmin xmax ymin ymax : float)
    (width height max_iter : Z) :
  (width < 0 \/ height < 0 ->
   mandelbrot_set junk xmin xmax ymin ymax width height max_iter
     = Raise ValueError /\
   julia_set_boundary junk c xmin xmax ymin ymax width height max_iter
     = Raise ValueError) /\
  (0 <= width -> 0 <= height ->
   exists r1 r2 img img',
     mandelbrot_set junk xmin xmax ymin ymax width height max_iter
       = Ok (r1, r2, img) /\
     julia_set_boundary junk c xmin xmax ymin ymax width height max_iter
       = Ok (r1, r2, img') /\
     length r1 = Z.to_nat width /\ length r2 = Z.to_nat height /\
     shape (Z.to_nat height) (Z.to_nat width) img /\
     shape (Z.to_nat height) (Z.to_nat width) img').
Proof.
  split.
  - intros H. split.
    + now apply mandelbrot_set_negative.
    + now apply julia_set_boundary_negative.
  - intros Hw Hh.
    destruct (mandelbrot_set_spec junk xmin xmax ymin ymax
                width height max_iter Hw Hh)
      as (r1 & r2 & img & E1 & E2 & L1 & L2 & E & Hs & _).
    destruct (julia_set_boundary_spec junk c xmin xmax ymin ymax
                width height max_iter Hw Hh)
      as (r1' & r2' & img' & E1' & E2' & _ & _ & E' & Hs' & _).
    rewrite E1 in E1'. injection E1' as <-.
    rewrite E2 in E2'. injection E2' as <-.
    now exists r1, r2, img, img'.
Qed.

End SamplerClaims.

(** ** Exact arithmetic: laws *)

Section Exact.
Local Open Scope Qc_scope.

Lemma Qc_of_int_0 : Qc_of_int 0 = 0.
Proof. apply Qc_is_canon. reflexivity. Qed.

Lemma Qc_of_int_sub (a b : Z) :
  Qc_of_int (a - b) = Qc_of_int a - Qc_of_int b.
Proof.
  apply Qc_is_canon. unfold Qc_of_int, Qcminus, Qcplus, Qcopp. simpl.
  rewrite !Qred_correct. unfold Qeq. simpl. lia.
Qed.

Lemma Qc_of_int_nonzero (n : Z) : n <> 0%Z -> Qc_of_int n <> 0.
Proof.
  intros Hn E. apply Hn. unfold Qc_of_int in E.
  apply Q2Qc_eq_iff in E. unfold Qeq in E. simpl in E. lia.
Qed.

#[global] Instance QcZeroLaws : ZeroLaws QcArith.
Proof.
  split; unfold zero; simpl; rewrite ?Qc_of_int_0.
  - ring.
  - ring.
  - intros x. ring.
  - reflexivity.
Qed.

(** *** The samples *)

(** With at least two samples, the sample that [linspace] computes is, in
    exact arithmetic, the sample of the specification; the first one is
    [start] and the last one is [stop]. *)
Lemma sample_exact (start stop : Qc) (num : Z) (j : nat) :
  (2 <= num)%Z ->
  sample (A := QcArith) start stop num j = spec_sample start stop num j.
Proof.
  intros Hn. unfold sample, spec_sample. simpl.
  field. apply Qc_of_int_nonzero. lia.
Qed.

Lemma spec_sample_first (start stop : Qc) (num : Z) :
  (2 <= num)%Z -> spec_sample start stop num 0 = start.
Proof.
  intros Hn. unfold spec_sample. change (Z.of_nat 0) with 0%Z.
  rewrite Qc_of_int_0.
  field. apply Qc_of_int_nonzero. lia.
Qed.

Lemma spec_sample_last (start stop : Qc) (num : Z) :
  (2 <= num)%Z -> spec_sample start stop num (Z.to_nat (num - 1)) = stop.
Proof.
  intros Hn. unfold spec_sample. rewrite Z2Nat.id by lia.
  field. apply Qc_of_int_nonzero. lia.
Qed.

End Exact.

(** ** Runs on concrete inputs *)

Section Runs.
Local Open Scope Z_scope.

Lemma escape_evaluator_loop_witness :
  julia_boundary three czero 5 = 1 /\ mandelbrot three 5 = 1.
Proof.
  destruct (escape_evaluator_loop three czero 5) as [Hesc _].
  destruct (Hesc 1%nat) as [Hj Hm].
  - lia.
  - intros k Hk. destruct k; [reflexivity|lia].
  - reflexivity.
  - split; [exact Hj|apply Hm; reflexivity].
Defined.

Lemma mandelbrot_agrees_with_julia_boundary_witness :
  julia_boundary three czero 5 = 1 /\ mandelbrot three 5 = 1.
Proof.
  split; [reflexivity|].
  apply (proj1 (mandelbrot_agrees_with_julia_boundary three 5) 1);
    [lia|reflexivity].
Defined.



(** C3 fails on the code: [3 + 0i] has a magnitude above 2, and [mandelbrot]
    returns 1 for it, not 0. *)
Lemma mandelbrot_outside_disk_returns_one :
  abs_gt three 2 = true /\ mandelbrot three 5 = 1 /\ mandelbrot three 5 <> 0.
Proof.
  split; [reflexivity|]. split; [reflexivity|]. vm_compute. discriminate.
Defined.

Lemma mandelbrot_outside_disk_witness :
  abs_gt three 2 = true /\ 1 <= 5 /\ mandelbrot three 5 = 1.
Proof.
  split; [reflexivity|]. split; [lia|].
  apply (mandelbrot_outside_disk three 5); [reflexivity|lia].
Defined.

(** C4 fails on the code: on the 5 by 5 grid over [-2, 2] x [-2, 2], with
    [c = 0] and a budget of 5, the corner [-2 - 2i] escapes at iteration 0
    and the centre 0 does not escape, and the cells of both hold 0. *)
Lemma julia_cell_zero_is_ambiguous :
  let r := julia_set_boundary sevens origin
             (q (-2) 1) (q 2 1) (q (-2) 1) (q 2 1) 5 5 5 in
  samples_of r = Some ([-2 # 1; -1 # 1; 0 # 1; 1 # 1; 2 # 1],
                       [-2 # 1; -1 # 1; 0 # 1; 1 # 1; 2 # 1])%Q /\
  julia_boundary origin (Complex (q (-2) 1) (q (-2) 1)) 5 = 0 /\
  julia_boundary origin (Complex (q 0 1) (q 0 1)) 5 = -1 /\
  image_of r = Some [[0; 0; 1; 0; 0];
                     [0; 2; 0; 2; 0];
                     [1; 0; 0; 0; 1];
                     [0; 2; 0; 2; 0];
                     [0; 0; 1; 0; 0]].
Proof. vm_compute. repeat split; reflexivity. Defined.

Lemma julia_cell_encoding_witness :
  exists r1 r2 img,
    julia_set_boundary sevens origin
      (q (-2) 1) (q 2 1) (q (-2) 1) (q 2 1) 5 5 5 = Ok (r1, r2, img) /\
    forall i j x y, r1 !! j = Some x -> r2 !! i = Some y ->
      let result := julia_boundary origin (Complex x y) 5 in
      (result = -1 /\ cell img i j = Some 0) \/
      (0 <= result < 5 /\ cell img i j = Some result).
Proof.
  apply (julia_cell_encoding sevens origin
           (q (-2) 1) (q 2 1) (q (-2) 1) (q 2 1) 5 5 5); lia.
Defined.

(** C5 fails on the code: a region whose bounds are in the wrong order and a
    grid of width 0 are both sampled, not rejected. *)
Lemma samplers_accept_invalid_region :
  Qc_ltb (q 0 1) (q 1 1) = true /\
  image_of (mandelbrot_set sevens (q 1 1) (q 0 1) (q 1 1) (q 0 1) 2 2 5)
    = Some [[2; 5]; [3; 5]] /\
  image_of (julia_set_boundary sevens origin
              (q 1 1) (q 0 1) (q 1 1) (q 0 1) 2 2 5)
    = Some [[2; 0]; [0; 0]] /\
  image_of (mandelbrot_set sevens (q (-2) 1) (q 2 1) (q (-2) 1) (q 2 1) 0 3 5)
    = Some [[]; []; []].
Proof. vm_compute. repeat split; reflexivity. Defined.

Lemma samplers_do_not_validate_witness :
  exists r1 r2 img img',
    mandelbrot_set sevens (q 1 1) (q 0 1) (q 1 1) (q 0 1) 2 2 5
      = Ok (r1, r2, img) /\
    julia_set_boundary sevens origin (q 1 1) (q 0 1) (q 1 1) (q 0 1) 2 2 5
      = Ok (r1, r2, img') /\
    length r1 = 2%nat /\ length r2 = 2%nat /\
    shape 2 2 img /\ shape 2 2 img'.
Proof.
  apply (proj2 (samplers_do_not_validate sevens origin
                  (q 1 1) (q 0 1) (q 1 1) (q 0 1) 2 2 5)); lia.
Defined.

Lemma mandelbrot_result_range_witness :
  0 <= 5 /\
  0 <= mandelbrot three 5 <= 5 /\
  image_of (mandelbrot_set sevens (q (-2) 1) (q 2 1) (q (-2) 1) (q 2 1) 2 2 1)
    = Some [[1; 1]; [1; 1]] /\
  cell [[1; 1]; [1; 1]] 0 1 = Some 1 /\
  (1 = 0 \/ 1 = 1).
Proof.
  destruct (mandelbrot_result_range sevens three 5
              (q (-2) 1) (q 2 1) (q (-2) 1) (q 2 1) 2 2
              [[1; 1]; [1; 1]] 0 1 1) as [Hr Hc]; [lia|].
  split; [lia|]. split; [exact Hr|].
  split; [reflexivity|]. split; [reflexivity|].
  apply Hc; reflexivity.
Defined.

End Runs.

(** ** The evaluators: budgets *)

Section Budgets.
Context {A : Arith}.
Implicit Types (c z : complex A).

(** The loop over a shorter range returns what the loop over the longer
    range returns, when that counter lies in the shorter range. *)
Lemma julia_for_prefix c (n' : nat) : forall (n a : nat) z,
  (n' <= n)%nat ->
  julia_boundary_for c z (map Z.of_nat (seq a n')) =
  match julia_boundary_for c z (map Z.of_nat (seq a n)) with
  | Some v => if v <? Z.of_nat (a + n') then Some v else None
  | None => None
  end.
Proof.
  induction n' as [|n' IH]; intros n a z Hn.
  - simpl. destruct (julia_boundary_for _ _ _) as [v|] eqn:E; [|reflexivity].
    apply julia_for_counter in E.
    destruct (Z.ltb_spec v (Z.of_nat (a + 0))); [lia|reflexivity].
  - destruct n as [|n]; [lia|]. simpl.
    destruct (abs_gt z 2).
    + destruct (Z.ltb_spec (Z.of_nat a) (Z.of_nat (a + S n'))); [reflexivity|lia].
    + rewrite (IH n (S a) (step c z)) by lia.
      now replace (S a + n')%nat with (a + S n')%nat by lia.
Qed.

(** Counting from [a + 1] instead of [a] adds one to the counter
    returned. *)
Lemma julia_for_shift c (n : nat) : forall (a : nat) z,
  julia_boundary_for c z (map Z.of_nat (seq (S a) n)) =
  option_map Z.succ (julia_boundary_for c z (map Z.of_nat (seq a n))).
Proof.
  induction n as [|n IH]; intros a z; simpl; [reflexivity|].
  destruct (abs_gt z 2).
  - simpl. f_equal. lia.
  - apply IH.
Qed.

Lemma mandelbrot_as_julia c (m : Z) :
  mandelbrot c m =
  match julia_boundary_for c czero (range m) with
  | Some n => n
  | None => m
  end.
Proof.
  unfold mandelbrot.
  now destruct (eq_sym (mandelbrot_for_julia c czero (range m))).
Qed.

(** X1. A smaller budget cuts the Mandelbrot result off: for
    [0 <= m' <= m], [mandelbrot c m'] is the smaller of [mandelbrot c m]
    and [m']. *)
Theorem mandelbrot_smaller_budget c (m m' : Z) :
  0 <= m' <= m -> mandelbrot c m' = Z.min (mandelbrot c m) m'.
Proof.
  intros Hm. rewrite !mandelbrot_as_julia. unfold range.
  rewrite (julia_for_prefix c (Z.to_nat m') (Z.to_nat m) O czero) by lia.
  destruct (julia_boundary_for c czero (map Z.of_nat (seq 0 (Z.to_nat m))))
    as [v|] eqn:E.
  - apply julia_for_counter in E.
    destruct (Z.ltb_spec v (Z.of_nat (0 + Z.to_nat m'))); simpl in *; lia.
  - lia.
Qed.

(** X2. A smaller budget keeps the Julia result when the point escaped
    within it, and turns it into -1 otherwise. *)
Theorem julia_boundary_smaller_budget c z (m m' : Z) :
  0 <= m' <= m ->
  julia_boundary c z m' =
  if (0 <=? julia_boundary c z m) && (julia_boundary c z m <? m')
  then julia_boundary c z m else -1.
Proof.
  intros Hm. unfold julia_boundary, range.
  rewrite (julia_for_prefix c (Z.to_nat m') (Z.to_nat m) O z) by lia.
  destruct (julia_boundary_for c z (map Z.of_nat (seq 0 (Z.to_nat m))))
    as [v|] eqn:E.
  - apply julia_for_counter in E.
    replace (Z.of_nat (0 + Z.to_nat m')) with m' by lia.
    destruct (Z.leb_spec 0 v); [|lia]. simpl.
    now destruct (Z.ltb_spec v m').
  - reflexivity.
Qed.

(** X3. [julia_boundary] returns 0 exactly when the budget is at least 1
    and the magnitude of the start point already exceeds 2. *)
Theorem julia_boundary_zero_iff c z (m : Z) :
  julia_boundary c z m = 0 <-> 1 <= m /\ abs_gt z 2 = true.
Proof.
  unfold julia_boundary. split.
  - intros H. destruct (Z.lt_ge_cases m 1) as [Hm|Hm].
    + rewrite range_nonpos in H by lia. discriminate.
    + split; [exact Hm|]. rewrite (range_first m Hm) in H. simpl in H.
      destruct (abs_gt z 2); [reflexivity|].
      destruct (julia_boundary_for _ _ _) as [v|] eqn:E; [|discriminate].
      apply julia_for_counter in E. lia.
  - intros [Hm Hz]. rewrite (range_first m Hm). simpl. now rewrite Hz.
Qed.

(** X4. With a budget below 1 neither loop body runs: [mandelbrot] returns
    the budget as it is, zero or negative, and [julia_boundary] returns
    -1. *)
Theorem evaluators_without_budget c z (m : Z) :
  m <= 0 -> mandelbrot c m = m /\ julia_boundary c z m = -1.
Proof.
  intros Hm. rewrite mandelbrot_as_julia. unfold julia_boundary.
  now rewrite (range_nonpos m Hm).
Qed.

End Budgets.

(** ** The evaluators: the first update *)

Section FirstUpdate.
Context {A : Arith} {L : ZeroLaws A}.
Implicit Types (c z : complex A).

(** After the first test and update the Mandelbrot loop is the Julia loop
    started at [c], with counters one higher. *)
Lemma mandelbrot_first_step c (m : Z) :
  1 <= m ->
  mandelbrot c m =
  match julia_boundary_for c c (range (m - 1)) with
  | Some n => n + 1
  | None => m
  end.
Proof.
  intros Hm. rewrite mandelbrot_as_julia, (range_first m Hm). simpl.
  rewrite abs_gt_czero, step_czero, julia_for_shift. unfold range.
  replace (Z.to_nat (m - 1)) with (Z.to_nat m - 1)%nat by lia.
  now destruct (julia_boundary_for c c _).
Qed.


Lemma mandelbrot_positive c (m : Z) :
  1 <= m -> 1 <= mandelbrot c m <= m.
Proof.
  intros Hm. rewrite (mandelbrot_first_step c m Hm).
  destruct (julia_boundary_for c c (range (m - 1))) as [v|] eqn:E; [|lia].
  unfold range in E. apply julia_for_counter in E. lia.
Qed.

End FirstUpdate.

(** ** The grids: cells, memory, degenerate sizes *)

Section MoreSamplers.
Context {A : Arith}.
Implicit Types (c z : complex A).

(** Two arrays of the same shape with the same cells are equal. *)
Lemma array2_ext (h w : nat) (a b : array2) :
  shape h w a -> shape h w b ->
  (forall i j, (i < h)%nat -> (j < w)%nat -> cell a i j = cell b i j) ->
  a = b.
Proof.
  intros Ha Hb Hc. apply list_eq. intros i.
  destruct (decide (i < h)%nat) as [Hi|Hi].
  - destruct (lookup_lt_is_Some_2 a i) as [ra Hra]; [destruct Ha; lia|].
    destruct (lookup_lt_is_Some_2 b i) as [rb Hrb]; [destruct Hb; lia|].
    rewrite Hra, Hrb. f_equal. apply list_eq. intros j.
    pose proof (shape_row h w a i ra Ha Hra) as La.
    pose proof (shape_row h w b i rb Hb Hrb) as Lb.
    destruct (decide (j < w)%nat) as [Hj|Hj].
    + specialize (Hc i j Hi Hj). unfold cell in Hc.
      now rewrite Hra, Hrb in Hc.
    + rewrite !lookup_ge_None_2 by lia. reflexivity.
  - destruct Ha as [La _], Hb as [Lb _].
    rewrite !lookup_ge_None_2 by lia. reflexivity.
Qed.

(** X6. What the memory behind the fresh image held does not show in the
    result: both samplers overwrite every cell. *)
Theorem samplers_ignore_memory (junk junk' : nat -> nat -> Z) c
    (xmin xmax ymin ymax : float) (width height max_iter : Z) :
  mandelbrot_set junk xmin xmax ymin ymax width height max_iter
  = mandelbrot_set junk' xmin xmax ymin ymax width height max_iter /\
  julia_set_boundary junk c xmin xmax ymin ymax width height max_iter
  = julia_set_boundary junk' c xmin xmax ymin ymax width height max_iter.
Proof.
  destruct (Z.lt_ge_cases width 0) as [Hw|Hw];
    [now rewrite !mandelbrot_set_negative, !julia_set_boundary_negative by lia|].
  destruct (Z.lt_ge_cases height 0) as [Hh|Hh];
    [now rewrite !mandelbrot_set_negative, !julia_set_boundary_negative by lia|].
  split.
  - destruct (mandelbrot_set_spec junk xmin xmax ymin ymax
                width height max_iter Hw Hh)
      as (r1 & r2 & img & E1 & E2 & L1 & L2 & E & Hs & Hc).
    destruct (mandelbrot_set_spec junk' xmin xmax ymin ymax
                width height max_iter Hw Hh)
      as (r1' & r2' & img' & E1' & E2' & _ & _ & E' & Hs' & Hc').
    rewrite E1 in E1'. injection E1' as <-.
    rewrite E2 in E2'. injection E2' as <-.
    rewrite E, E'. do 2 f_equal.
    apply (array2_ext _ _ _ _ Hs Hs'). intros i j Hi Hj.
    destruct (lookup_lt_is_Some_2 r1 j) as [x Hx]; [lia|].
    destruct (lookup_lt_is_Some_2 r2 i) as [y Hy]; [lia|].
    now rewrite (Hc i j x y Hx Hy), (Hc' i j x y Hx Hy).
  - destruct (julia_set_boundary_spec junk c xmin xmax ymin ymax
                width height max_iter Hw Hh)
      as (r1 & r2 & img & E1 & E2 & L1 & L2 & E & Hs & Hc).
    destruct (julia_set_boundary_spec junk' c xmin xmax ymin ymax
                width height max_iter Hw Hh)
      as (r1' & r2' & img' & E1' & E2' & _ & _ & E' & Hs' & Hc').
    rewrite E1 in E1'. injection E1' as <-.
    rewrite E2 in E2'. injection E2' as <-.
    rewrite E, E'. do 2 f_equal.
    apply (array2_ext _ _ _ _ Hs Hs'). intros i j Hi Hj.
    destruct (lookup_lt_is_Some_2 r1 j) as [x Hx]; [lia|].
    destruct (lookup_lt_is_Some_2 r2 i) as [y Hy]; [lia|].
    now rewrite (Hc i j x y Hx Hy), (Hc' i j x y Hx Hy).
Qed.

(** X7. Whatever the arithmetic and the budget, [mandelbrot_set] called
    with a width and a height that are not negative returns [width] and
    [height] coordinates and an image of [height] rows and [width] columns
    whose cell [(i, j)] holds the low 32 bits of
    [mandelbrot(complex(r1[j], r2[i]), max_iter)], for the coordinates [r1]
    and [r2] it returns: a result of [2 ^ 32] or more, or a negative one,
    is not stored as it is. *)
Theorem mandelbrot_set_cells (junk : nat -> nat -> Z)
    (xmin xmax ymin ymax : float) (width height max_iter : Z) :
  0 <= width -> 0 <= height ->
  exists r1 r2 img,
    mandelbrot_set junk xmin xmax ymin ymax width height max_iter
      = Ok (r1, r2, img) /\
    length r1 = Z.to_nat width /\ length r2 = Z.to_nat height /\
    shape (Z.to_nat height) (Z.to_nat width) img /\
    forall i j, (i < Z.to_nat height)%nat -> (j < Z.to_nat width)%nat ->
      exists x y, r1 !! j = Some x /\ r2 !! i = Some y /\
        cell img i j = Some (mandelbrot (Complex x y) max_iter mod 2 ^ 32).
Proof.
  intros Hw Hh.
  destruct (mandelbrot_set_spec junk xmin xmax ymin ymax
              width height max_iter Hw Hh)
    as (r1 & r2 & img & _ & _ & L1 & L2 & E & Hs & Hc).
  exists r1, r2, img.
  split; [exact E|]. split; [exact L1|]. split; [exact L2|].
  split; [exact Hs|].
  intros i j Hi Hj.
  destruct (lookup_lt_is_Some_2 r1 j) as [x Hx]; [lia|].
  destruct (lookup_lt_is_Some_2 r2 i) as [y Hy]; [lia|].
  exists x, y. split; [exact Hx|]. split; [exact Hy|].
  exact (Hc i j x y Hx Hy).
Qed.

End MoreSamplers.

(** ** The viewer: what the handlers do *)

Section Viewer.
Import MandelbrotJuliaApp.
Context {A : Arith}.
Variable junk : nat -> nat -> Z.
Implicit Types (v : viewer A) (ev : event A) (h : handled) (s : app A).

(** The region of the right plot: [center - extent] to [center + extent]
    with the centre 0 and the extent 2.0, on both axes. *)
Local Abbreviation lo := (sub (of_int 0) (of_int 2)).
Local Abbreviation hi := (add (of_int 0) (of_int 2)).

Lemma set_c_same s : set_c s (c s) = s.
Proof. now destruct s. Qed.

Lemma set_c_twice s (p p' : complex A) : set_c (set_c s p) p' = set_c s p'.
Proof. reflexivity. Qed.

(** With sizes that are not negative [update_julia] does not raise: it
    clears the right plot and puts the image of the current parameter on
    it. *)
Lemma update_julia_runs v :
  0 <= width (self v) -> 0 <= height (self v) ->
  exists img,
    image_of (julia_set_boundary junk (c (self v)) lo hi lo hi
                (width (self v)) (height (self v)) (max_iter (self v)))
      = Some img /\
    shape (Z.to_nat (height (self v))) (Z.to_nat (width (self v))) img /\
    update_julia junk v =
      called v [clear ax2; imshow ax2 img (lo, hi, lo, hi) magma;
                set_title ax2 (Julia_Set_for (c (self v)))].
Proof.
  intros Hw Hh.
  destruct (julia_set_boundary_spec junk (c (self v)) lo hi lo hi
              (width (self v)) (height (self v)) (max_iter (self v)) Hw Hh)
    as (r1 & r2 & img & _ & _ & _ & _ & E & Hs & _).
  exists img. unfold update_julia. cbv zeta. rewrite E.
  split; [reflexivity|]. split; [exact Hs|reflexivity].
Qed.

Lemma update_mandelbrot_runs v :
  0 <= width (self v) -> 0 <= height (self v) ->
  exists img,
    image_of (mandelbrot_set junk (xmin (self v)) (xmax (self v))
                (ymin (self v)) (ymax (self v))
                (width (self v)) (height (self v))
                (max_iter_mandel (self v)))
      = Some img /\
    shape (Z.to_nat (height (self v))) (Z.to_nat (width (self v))) img /\
    update_mandelbrot junk v =
      called v [clear ax1;
                imshow ax1 img (xmin (self v), xmax (self v),
                                ymin (self v), ymax (self v)) magma;
                set_title ax1 Mandelbrot_Set].
Proof.
  intros Hw Hh.
  destruct (mandelbrot_set_spec junk (xmin (self v)) (xmax (self v))
              (ymin (self v)) (ymax (self v))
              (width (self v)) (height (self v))
              (max_iter_mandel (self v)) Hw Hh)
    as (r1 & r2 & img & _ & _ & _ & _ & E & Hs & _).
  exists img. unfold update_mandelbrot. rewrite E.
  split; [reflexivity|]. split; [exact Hs|reflexivity].
Qed.

(** [update_julia] raises nothing but what the sampler raises, keeps the
    attributes, and calls on the right plot only. *)
Lemma update_julia_frame v :
  fst (update_julia junk v) <> Some TypeError /\
  self (snd (update_julia junk v)) = self v /\
  exists cs, gui (snd (update_julia junk v)) = gui v ++ cs /\
             forallb spares_ax1 cs = true.
Proof.
  unfold update_julia.
  destruct (julia_set_boundary _ _ _ _ _ _ _ _ _) as [[[r1 r2] img]|e]; simpl.
  - split; [discriminate|]. split; [reflexivity|]. eexists. split; reflexivity.
  - split; [discriminate|]. split; [reflexivity|]. exists [].
    now rewrite app_nil_r.
Qed.

(** A handler that has both coordinates of an event on the left plot sets
    [c], updates the right plot and draws. *)
Lemma handler_body v (x y : float) :
  let v1 := Viewer (set_c (self v) (Complex x y)) (gui v) in
  let r := and_then (update_julia junk v1) (fun v => called v [draw]) in
  fst r <> Some TypeError /\
  self (snd r) = set_c (self v) (Complex x y) /\
  exists cs, gui (snd r) = gui v ++ cs /\ forallb spares_ax1 cs = true.
Proof.
  intros v1 r. subst r.
  destruct (update_julia_frame v1) as (Hn & Hs & cs & Hg & Hf).
  destruct (update_julia junk v1) as [[e|] v2]; simpl in *.
  - split; [exact Hn|]. split; [exact Hs|]. now exists cs.
  - split; [discriminate|]. split; [exact Hs|].
    exists (cs ++ [draw]). rewrite Hg, app_assoc. split; [reflexivity|].
    rewrite forallb_app, Hf. reflexivity.
Qed.

(** X9. A click on the left plot at the data coordinates [(x, y)], in a
    viewer whose sizes are not negative, does not raise; it sets [c] to
    [complex(x, y)] and leaves the other attributes alone, and it makes
    four calls: it clears the right plot, puts on it the image that
    [julia_set_boundary] returns for the new [c] over the square from -2
    to 2 with the viewer's width, height and budget, sets the title, and
    draws the canvas. *)
Theorem click_shows_julia_set v ev (x y : float) :
  inaxes ev = Some ax1 -> xdata ev = Some x -> ydata ev = Some y ->
  0 <= width (self v) -> 0 <= height (self v) ->
  exists img,
    image_of (julia_set_boundary junk (Complex x y) lo hi lo hi
                (width (self v)) (height (self v)) (max_iter (self v)))
      = Some img /\
    shape (Z.to_nat (height (self v))) (Z.to_nat (width (self v))) img /\
    onclick junk v ev =
      (None,
       Viewer (set_c (self v) (Complex x y))
         (gui v ++ [clear ax2; imshow ax2 img (lo, hi, lo, hi) magma;
                    set_title ax2 (Julia_Set_for (Complex x y)); draw])).
Proof.
  intros Hin Hx Hy Hw Hh. unfold onclick. rewrite Hin, Hx, Hy.
  destruct (update_julia_runs
              (Viewer (set_c (self v) (Complex x y)) (gui v)) Hw Hh)
    as (img & E & Hs & ->).
  exists img. split; [exact E|]. split; [exact Hs|].
  unfold called, and_then. simpl. now rewrite <- app_assoc.
Qed.

(** X10. [onmotion] never raises a [TypeError].  [onclick] raises one
    exactly on an event on the left plot that lacks a data coordinate; it
    then leaves the viewer as it was, and [onmotion] ignores the same
    event.  On every other event the two handlers do the same. *)
Theorem handlers_on_missing_coordinates v ev :
  fst (onmotion junk v ev) <> Some TypeError /\
  (fst (onclick junk v ev) = Some TypeError <->
   inaxes ev = Some ax1 /\ (xdata ev = None \/ ydata ev = None)) /\
  (fst (onclick junk v ev) = Some TypeError ->
   onclick junk v ev = (Some TypeError, v) /\
   onmotion junk v ev = (None, v)) /\
  (fst (onclick junk v ev) <> Some TypeError ->
   onmotion junk v ev = onclick junk v ev).
Proof.
  unfold onclick, onmotion.
  destruct (inaxes ev) as [[|]|];
    try (simpl; repeat split; try discriminate; try tauto;
         intros [? _]; discriminate).
  destruct (xdata ev) as [x|], (ydata ev) as [y|]; simpl;
    try (repeat split; try discriminate; try tauto; auto).
  all: try (destruct (handler_body v x y) as (Hn & _); simpl in Hn).
  all: try tauto.
  - intros [_ [?|?]]; discriminate.
Qed.

(** X11. Whatever the event, a handler changes no attribute but [c], adds
    its calls after those made before, and makes no call on the left plot:
    the Mandelbrot image is computed at start-up only. *)
Theorem handlers_spare_mandelbrot_plot v h :
  let v' := snd (handle junk v h) in
  self v' = set_c (self v) (c (self v')) /\
  exists cs, gui v' = gui v ++ cs /\ forallb spares_ax1 cs = true.
Proof.
  assert (Hsame : self v = set_c (self v) (c (self v)) /\
                  exists cs, gui v = gui v ++ cs /\
                             forallb spares_ax1 cs = true).
  { split; [now rewrite set_c_same|]. exists []. now rewrite app_nil_r. }
  destruct h as [ev|ev]; simpl; unfold onclick, onmotion;
    (destruct (inaxes ev) as [[|]|]; [|exact Hsame|exact Hsame]);
    (destruct (xdata ev) as [x|]; [|exact Hsame]);
    (destruct (ydata ev) as [y|]; [|exact Hsame]);
    destruct (handler_body v x y) as (_ & Hs & Hg); simpl in Hs, Hg;
    (split; [now rewrite Hs|exact Hg]).
Qed.

(** *** From start-up on *)

Lemma render_app (cs cs' : list (call A)) (st : plots * plots) :
  fold_left render (cs ++ cs') st = fold_left render cs' (fold_left render cs st).
Proof. apply fold_left_app. Qed.

Lemma and_then_called v (cs : list (call A)) (k : viewer A -> run A) :
  and_then (called v cs) k = k (Viewer (self v) (gui v ++ cs)).
Proof. reflexivity. Qed.

(** The attributes of a viewer that is not negative in size, and a canvas
    that shows the image [m] on the left and the Julia image of the current
    [c] on the right, with nothing pending. *)
Lemma handle_keeps_canvas (m : array2) v h :
  let J s := image_of (julia_set_boundary junk (c s) lo hi lo hi
                         (width s) (height s) (max_iter s)) in
  0 <= width (self v) -> 0 <= height (self v) ->
  fold_left render (gui v) ((None, None), (None, None))
    = ((Some m, J (self v)), (Some m, J (self v))) ->
  let r := handle junk v h in
  (fst r = None \/ fst r = Some TypeError) /\
  self (snd r) = set_c (self v) (c (self (snd r))) /\
  fold_left render (gui (snd r)) ((None, None), (None, None))
    = ((Some m, J (self (snd r))), (Some m, J (self (snd r)))).
Proof.
  intros J Hw Hh Hc r.
  assert (Hsame : (@fst (option exn) (viewer A) (None, v) = None \/
                   @fst (option exn) (viewer A) (None, v) = Some TypeError) /\
                  self v = set_c (self v) (c (self v)) /\
                  fold_left render (gui v) ((None, None), (None, None))
                    = ((Some m, J (self v)), (Some m, J (self v)))).
  { split; [now left|]. split; [now rewrite set_c_same|exact Hc]. }
  assert (Hraise : (@fst (option exn) (viewer A) (Some TypeError, v) = None \/
                    @fst (option exn) (viewer A) (Some TypeError, v)
                      = Some TypeError) /\
                   self v = set_c (self v) (c (self v)) /\
                   fold_left render (gui v) ((None, None), (None, None))
                     = ((Some m, J (self v)), (Some m, J (self v)))).
  { split; [now right|]. split; [now rewrite set_c_same|exact Hc]. }
  assert (Hbody : forall x y,
    let r := and_then
               (update_julia junk
                  (Viewer (set_c (self v) (Complex x y)) (gui v)))
               (fun v => called v [draw]) in
    (fst r = None \/ fst r = Some TypeError) /\
    self (snd r) = set_c (self v) (c (self (snd r))) /\
    fold_left render (gui (snd r)) ((None, None), (None, None))
      = ((Some m, J (self (snd r))), (Some m, J (self (snd r))))).
  { intros x y.
    destruct (update_julia_runs
                (Viewer (set_c (self v) (Complex x y)) (gui v)) Hw Hh)
      as (img & E & _ & ->).
    unfold called, and_then.
    cbn [fst snd self gui].
    split; [now left|]. split; [reflexivity|].
    change (J (set_c (self v) (Complex x y)) = Some img) in E.
    rewrite E, <- app_assoc, render_app, Hc. reflexivity. }
  subst r. destruct h as [ev|ev]; unfold handle, onclick, onmotion;
    (destruct (inaxes ev) as [[|]|]; [|exact Hsame|exact Hsame]);
    (destruct (xdata ev) as [x|]; [|first [exact Hsame|exact Hraise]]);
    (destruct (ydata ev) as [y|]; [|first [exact Hsame|exact Hraise]]);
    exact (Hbody x y).
Qed.

(** X12. The start-up does not raise.  After it, and after any calls of
    the two handlers, the canvas shows on the left the image of
    [mandelbrot_set] for the region from -2.5 to 1.5 and from -2 to 2 with
    the budget 5000, and on the right the image of [julia_set_boundary] for
    the current [c] over the square from -2 to 2 with the budget 1000, both
    of 800 rows and 800 columns; and a further call of a handler raises
    nothing, or the [TypeError] of a click without coordinates. *)
Theorem canvas_shows_current_parameter (hs : list handled) h :
  fst (init junk) = None /\
  let v := after junk (snd (init junk)) hs in
  (exists m j,
     on_canvas (gui v) = (Some m, Some j) /\
     image_of (mandelbrot_set junk (div (of_int (-5)) (of_int 2))
                 (div (of_int 3) (of_int 2)) (of_int (-2)) (of_int 2)
                 800 800 5000) = Some m /\
     image_of (julia_set_boundary junk (c (self v)) lo hi lo hi
                 800 800 1000) = Some j /\
     shape 800 800 m /\ shape 800 800 j) /\
  (fst (handle junk v h) = None \/ fst (handle junk v h) = Some TypeError).
Proof.
  pose (J := fun s : app A =>
          image_of (julia_set_boundary junk (c s) lo hi lo hi
                      (width s) (height s) (max_iter s))).
  pose (M := image_of (mandelbrot_set junk (div (of_int (-5)) (of_int 2))
                 (div (of_int 3) (of_int 2)) (of_int (-2)) (of_int 2)
                 800 800 5000)).
  assert (Hinit : fst (init junk) = None /\
    exists m, M = Some m /\ shape 800 800 m /\
      width (self (snd (init junk))) = 800 /\
      height (self (snd (init junk))) = 800 /\
      max_iter (self (snd (init junk))) = 1000 /\
      fold_left render (gui (snd (init junk))) ((None, None), (None, None))
        = ((Some m, J (self (snd (init junk)))),
           (Some m, J (self (snd (init junk)))))).
  { unfold init. cbv zeta.
    set (v0 := Viewer _ (@nil (call A))).
    assert (Hw : 0 <= width (self v0)) by (change (0 <= 800); lia).
    assert (Hh : 0 <= height (self v0)) by (change (0 <= 800); lia).
    destruct (update_mandelbrot_runs v0 Hw Hh) as (m & Em & Sm & ->).
    rewrite and_then_called.
    set (v1 := Viewer (self v0) _).
    destruct (update_julia_runs v1 Hw Hh) as (j & Ej & Sj & ->).
    unfold called, and_then. cbn [fst snd self gui].
    split; [reflexivity|]. exists m. split; [exact Em|].
    split; [exact Sm|]. do 3 (split; [reflexivity|]).
    change (J (self v1) = Some j) in Ej. rewrite Ej. reflexivity. }
  destruct Hinit as (H0 & m & Em & Sm & Hw & Hh & Hi & Hc).
  split; [exact H0|]. intros v.
  assert (Hinv : width (self v) = 800 /\ height (self v) = 800 /\
                 max_iter (self v) = 1000 /\
                 fold_left render (gui v) ((None, None), (None, None))
                   = ((Some m, J (self v)), (Some m, J (self v)))).
  { subst v. revert Hw Hh Hi Hc. generalize (snd (init junk)).
    induction hs as [|h0 hs IH]; intros v Hw Hh Hi Hc; [now repeat split|].
    unfold after. cbn [fold_left]. apply IH.
    all: destruct (handle_keeps_canvas m v h0 ltac:(lia) ltac:(lia) Hc)
      as (_ & Hs & Hc'); cbv zeta in Hs, Hc'.
    1-3: rewrite Hs; cbn [self width height max_iter set_c]; assumption.
    exact Hc'. }
  destruct Hinv as (Hw' & Hh' & Hi' & Hc'). split.
  - destruct (julia_set_boundary_spec junk (c (self v)) lo hi lo hi
                (width (self v)) (height (self v)) (max_iter (self v))
                ltac:(lia) ltac:(lia))
      as (r1 & r2 & j & _ & _ & _ & _ & E & Hs & _).
    exists m, j. unfold on_canvas. rewrite Hc'. unfold J. rewrite E.
    split; [reflexivity|]. split; [exact Em|].
    rewrite Hw', Hh', Hi' in E. rewrite E.
    split; [reflexivity|]. split; [exact Sm|].
    rewrite Hw', Hh' in Hs. exact Hs.
  - exact (proj1 (handle_keeps_canvas m v h ltac:(lia) ltac:(lia) Hc')).
Qed.

End Viewer.

(** ** The grids: the Mandelbrot image has no zero *)

Section PositiveImage.
Context {A : Arith} {L : ZeroLaws A}.
Variable junk : nat -> nat -> Z.


End PositiveImage.

(** ** Exact arithmetic: the real parameters from -2 to 1/4 *)

Section RealSegment.
Local Open Scope Qc_scope.

Lemma this_mult (a b : Qc) : (this (a * b) == this a * this b)%Q.
Proof. unfold Qcmult, Q2Qc. cbn [this]. apply Qred_correct. Qed.

Lemma this_plus (a b : Qc) : (this (a + b) == this a + this b)%Q.
Proof. unfold Qcplus, Q2Qc. cbn [this]. apply Qred_correct. Qed.

Lemma this_opp (a : Qc) : (this (- a) == - this a)%Q.
Proof. unfold Qcopp, Q2Qc. cbn [this]. apply Qred_correct. Qed.

Lemma Qc_ltb_false (a b : Qc) : b <= a -> Qc_ltb a b = false.
Proof.
  intros H. unfold Qc_ltb. destruct (a ?= b) eqn:E; try reflexivity.
  apply Qclt_alt in E. now apply Qcle_not_lt in H.
Qed.

(** The real iterates of a parameter [x] stay between [x] and [-x] when
    [x] is not positive, and between 0 and 1/2 otherwise; either way their
    square is at most 4. *)
Lemma real_step (x t : Qc) :
  q (-2) 1 <= x -> x <= q 1 4 ->
  (x <= 0 /\ x <= t /\ t <= - x) \/ (0 <= x /\ 0 <= t /\ t <= q 1 2) ->
  t * t <= q 4 1 /\
  ((x <= 0 /\ x <= t * t + x /\ t * t + x <= - x) \/
   (0 <= x /\ 0 <= t * t + x /\ t * t + x <= q 1 2)).
Proof.
  unfold Qcle. rewrite !this_plus, !this_mult, !this_opp. simpl.
  rewrite !Qred_correct.
  generalize (this x) (this t). intros a b H1 H2 H. split.
  - destruct H as [(Ha & Hb & Hc)|(Ha & Hb & Hc)]; nra.
  - destruct H as [(Ha & Hb & Hc)|(Ha & Hb & Hc)]; [left|right];
      repeat split; nra.
Qed.

Lemma real_orbit_stays (x : Qc) (ns : list Z) : forall t : Qc,
  q (-2) 1 <= x -> x <= q 1 4 ->
  (x <= 0 /\ x <= t /\ t <= - x) \/ (0 <= x /\ 0 <= t /\ t <= q 1 2) ->
  julia_boundary_for (Complex (A := QcArith) x 0)
    (Complex (A := QcArith) t 0) ns = None.
Proof.
  induction ns as [|n ns IH]; intros t Hlo Hhi Hinv; [reflexivity|].
  destruct (real_step x t Hlo Hhi Hinv) as [Hsq Hinv'].
  cbn [julia_boundary_for].
  assert (Habs : abs_gt (Complex (A := QcArith) t 0) 2 = false).
  { unfold abs_gt. cbn [real imag hypot_gt QcArith of_int].
    unfold Qc_hypot_gt. rewrite orb_false_iff. split; [reflexivity|].
    apply Qc_ltb_false.
    replace (t * t + 0 * 0) with (t * t) by ring.
    replace (Qc_of_int 2 * Qc_of_int 2) with (q 4 1)
      by (apply Qc_is_canon; reflexivity).
    exact Hsq. }
  rewrite Habs.
  replace (step (Complex (A := QcArith) x 0) (Complex (A := QcArith) t 0))
    with (Complex (A := QcArith) (t * t + x) 0).
  - now apply IH.
  - unfold step, cadd, cmul. simpl.
    f_equal; change (@float QcArith) with Qc in *; ring.
Qed.


End RealSegment.

(** ** The grids: the samples and their cells *)

Section GridSampling.
Context {A : Arith}.
Variable junk : nat -> nat -> Z.
Implicit Types (c z : complex A).

(** C2, as the code has it.  With a width and a height of at least 2, both
    samplers sample [xs[j] = xmin + (xmax - xmin) * (j / (width - 1))] for
    [j] below [width] and [ys[i] = ymin + (ymax - ymin) * (i / (height - 1))]
    for [i] below [height], in the arithmetic of the program, and row [i],
    column [j] of the image of [height] rows and [width] columns holds the
    result for the sample point [(xs[j], ys[i])]: the result of [mandelbrot]
    in the image of [mandelbrot_set], and the result of [julia_boundary],
    with 0 in place of -1, in the image of [julia_set_boundary].  The
    budget is one that fits the cells.  The order of the bounds of the
    region plays no part. *)
Theorem grid_sampling c (xmin xmax ymin ymax : float)
    (width height max_iter : Z) :
  2 <= width -> 2 <= height -> 0 <= max_iter < 2 ^ 32 ->
  exists r1 r2 img img',
    mandelbrot_set junk xmin xmax ymin ymax width height max_iter
      = Ok (r1, r2, img) /\
    julia_set_boundary junk c xmin xmax ymin ymax width height max_iter
      = Ok (r1, r2, img') /\
    length r1 = Z.to_nat width /\ length r2 = Z.to_nat height /\
    shape (Z.to_nat height) (Z.to_nat width) img /\
    shape (Z.to_nat height) (Z.to_nat width) img' /\
    forall i j, (i < Z.to_nat height)%nat -> (j < Z.to_nat width)%nat ->
      let x := sample xmin xmax width j in
      let y := sample ymin ymax height i in
      r1 !! j = Some x /\ r2 !! i = Some y /\
      cell img i j = Some (mandelbrot (Complex x y) max_iter) /\
      cell img' i j =
        Some (julia_pixel (julia_boundary c (Complex x y) max_iter)).
Proof.
  intros Hw Hh Hm.
  destruct (mandelbrot_set_spec junk xmin xmax ymin ymax
              width height max_iter) as
    (r1 & r2 & img & E1 & E2 & L1 & L2 & E & Hs & Hc); [lia|lia|].
  destruct (julia_set_boundary_spec junk c xmin xmax ymin ymax
              width height max_iter) as
    (r1' & r2' & img' & E1' & E2' & _ & _ & E' & Hs' & Hc'); [lia|lia|].
  rewrite E1 in E1'. injection E1' as <-.
  rewrite E2 in E2'. injection E2' as <-.
  exists r1, r2, img, img'. repeat (split; [assumption|]).
  intros i j Hi Hj x y.
  pose proof (linspace_lookup _ _ _ _ j Hj E1) as Hx.
  pose proof (linspace_lookup _ _ _ _ i Hi E2) as Hy.
  fold x in Hx. fold y in Hy.
  split; [exact Hx|]. split; [exact Hy|]. split.
  - rewrite (Hc i j x y Hx Hy). f_equal. apply uint32_small.
    pose proof (mandelbrot_bounds (Complex x y) max_iter). lia.
  - rewrite (Hc' i j x y Hx Hy). f_equal. apply uint32_small.
    unfold julia_pixel.
    destruct (julia_boundary_cases c (Complex x y) max_iter)
      as [[_ ->]|(n & _ & -> & Hn)]; [simpl; lia|].
    destruct (Z.leb_spec 0 n); lia.
Qed.

End GridSampling.

(** ** Binary64: signs *)

Section Binary64.
Variable junk : nat -> nat -> Z.
Implicit Types (x y a b : spec_float).

(** Rounding looks at the magnitude only. *)
Lemma binary_round_aux_opp (s : bool) (m e : Z) (l : location) :
  binary_round_aux 53 1024 (negb s) m e l
  = SFopp (binary_round_aux 53 1024 s m e l).
Proof.
  unfold binary_round_aux.
  destruct (shr_fexp 53 1024 m e l) as [mrs' e'].
  destruct (shr_fexp 53 1024 _ e' loc_Exact) as [mrs'' e''].
  destruct (shr_m mrs''); [reflexivity| |reflexivity].
  now destruct (e'' <=? _).
Qed.

Lemma SFmul_opp_r x y :
  SFmul 53 1024 x (SFopp y) = SFopp (SFmul 53 1024 x y).
Proof.
  destruct x as [sx|sx| |sx mx ex], y as [sy|sy| |sy my ey]; simpl;
    try reflexivity; try (now destruct sx, sy).
  destruct sx, sy; simpl;
    first [exact (binary_round_aux_opp false _ _ _)
          |exact (binary_round_aux_opp true _ _ _)].
Qed.

Lemma SFmul_opp_l x y :
  SFmul 53 1024 (SFopp x) y = SFopp (SFmul 53 1024 x y).
Proof.
  destruct x as [sx|sx| |sx mx ex], y as [sy|sy| |sy my ey]; simpl;
    try reflexivity; try (now destruct sx, sy).
  destruct sx, sy; simpl;
    first [exact (binary_round_aux_opp false _ _ _)
          |exact (binary_round_aux_opp true _ _ _)].
Qed.

Lemma SFopp_involutive x : SFopp (SFopp x) = x.
Proof. destruct x as [s|s| |s m e]; simpl; now rewrite ?negb_involutive. Qed.

Lemma SFmul_opp_opp x y :
  SFmul 53 1024 (SFopp x) (SFopp y) = SFmul 53 1024 x y.
Proof. now rewrite SFmul_opp_l, SFmul_opp_r, SFopp_involutive. Qed.

Lemma mirrored_opp a : mirrored a (SFopp a).
Proof. now left. Qed.

Lemma mirrored_zeros (s t : bool) : mirrored (S754_zero s) (S754_zero t).
Proof. now right. Qed.

Lemma mirrored_mul_r x a b :
  mirrored a b -> mirrored (SFmul 53 1024 x a) (SFmul 53 1024 x b).
Proof.
  intros [->|[Ha Hb]]; [left; apply SFmul_opp_r|].
  destruct a as [s| | |]; try discriminate.
  destruct b as [t| | |]; try discriminate.
  destruct x as [sx|sx| |sx mx ex]; simpl;
    first [apply mirrored_zeros|now left].
Qed.

Lemma mirrored_mul_l x a b :
  mirrored a b -> mirrored (SFmul 53 1024 a x) (SFmul 53 1024 b x).
Proof.
  intros [->|[Ha Hb]]; [left; apply SFmul_opp_l|].
  destruct a as [s| | |]; try discriminate.
  destruct b as [t| | |]; try discriminate.
  destruct x as [sx|sx| |sx mx ex]; simpl;
    first [apply mirrored_zeros|now left].
Qed.

Lemma mirrored_square a b :
  mirrored a b -> SFmul 53 1024 b b = SFmul 53 1024 a a.
Proof.
  intros [->|[Ha Hb]]; [apply SFmul_opp_opp|].
  destruct a as [s| | |]; try discriminate.
  destruct b as [t| | |]; try discriminate.
  now destruct s, t.
Qed.

Lemma binary_normalize_opp (m e : Z) :
  mirrored (binary_normalize 53 1024 m e false)
           (binary_normalize 53 1024 (- m) e false).
Proof.
  destruct m as [|p|p]; simpl; [apply mirrored_zeros| |].
  - left. unfold binary_round.
    destruct (shl_align p e _) as [mz ez].
    exact (binary_round_aux_opp false _ _ _).
  - left. unfold binary_round.
    destruct (shl_align p e _) as [mz ez].
    exact (binary_round_aux_opp true _ _ _).
Qed.

Lemma SFadd_opp_opp a b :
  mirrored (SFadd 53 1024 a b) (SFadd 53 1024 (SFopp a) (SFopp b)).
Proof.
  destruct a as [sa|sa| |sa ma ea], b as [sb|sb| |sb mb eb]; simpl;
    try (now left); try (destruct sa, sb; simpl; first [apply mirrored_zeros|now left]).
  set (ez := Z.min ea eb).
  replace (cond_Zopp (negb sa) (Z.pos (fst (shl_align ma ea ez)))
           + cond_Zopp (negb sb) (Z.pos (fst (shl_align mb eb ez))))
    with (- (cond_Zopp sa (Z.pos (fst (shl_align ma ea ez)))
             + cond_Zopp sb (Z.pos (fst (shl_align mb eb ez)))))
    by (destruct sa, sb; simpl; lia).
  apply binary_normalize_opp.
Qed.

Lemma mirrored_add a a' b b' :
  mirrored a a' -> mirrored b b' ->
  mirrored (SFadd 53 1024 a b) (SFadd 53 1024 a' b').
Proof.
  intros [->|[Ha Ha']] [->|[Hb Hb']].
  - apply SFadd_opp_opp.
  - destruct b as [s| | |]; try discriminate.
    destruct b' as [t| | |]; try discriminate.
    destruct a as [sa|sa| |sa ma ea]; simpl; try (now left).
    destruct sa, s, t; simpl; apply mirrored_zeros.
  - destruct a as [s| | |]; try discriminate.
    destruct a' as [t| | |]; try discriminate.
    destruct b as [sb|sb| |sb mb eb]; simpl; try (now left).
    destruct sb, s, t; simpl; apply mirrored_zeros.
  - destruct a as [s| | |]; try discriminate.
    destruct a' as [t| | |]; try discriminate.
    destruct b as [u| | |]; try discriminate.
    destruct b' as [w| | |]; try discriminate.
    destruct s, t, u, w; simpl; apply mirrored_zeros.
Qed.

Lemma mirrored_hypot x a b :
  mirrored a b -> b64_hypot x b = b64_hypot x a.
Proof.
  intros [->|[Ha Hb]].
  - destruct x as [sx|sx| |sx mx ex], a as [sa|sa| |sa ma ea]; reflexivity.
  - destruct a as [s| | |]; try discriminate.
    destruct b as [t| | |]; try discriminate.
    destruct x as [sx|sx| |sx mx ex]; reflexivity.
Qed.

Lemma julia_for_mirrored (x y y' : spec_float) (ns : list Z) :
  mirrored y y' ->
  forall zr zi zi' : spec_float, mirrored zi zi' ->
  julia_boundary_for (Complex (A := B64Arith) x y')
    (Complex (A := B64Arith) zr zi') ns
  = julia_boundary_for (Complex (A := B64Arith) x y)
      (Complex (A := B64Arith) zr zi) ns.
Proof.
  intros Hy. induction ns as [|n ns IH]; intros zr zi zi' Hz;
    cbn [julia_boundary_for]; [reflexivity|].
  unfold abs_gt. cbn [real imag hypot_gt B64Arith]. unfold b64_hypot_gt.
  rewrite (mirrored_hypot zr zi zi' Hz).
  destruct (SFltb _ _); [reflexivity|].
  unfold step, cadd, cmul. cbn [real imag add sub mul B64Arith].
  rewrite (mirrored_square zi zi' Hz).
  apply IH. apply mirrored_add; [|exact Hy].
  apply mirrored_add; [now apply mirrored_mul_r|now apply mirrored_mul_l].
Qed.

Lemma mandelbrot_mirrored (x y y' : spec_float) (max_iter : Z) :
  mirrored y y' ->
  mandelbrot (Complex (A := B64Arith) x y') max_iter
  = mandelbrot (Complex (A := B64Arith) x y) max_iter.
Proof.
  intros Hy. unfold mandelbrot. rewrite !mandelbrot_for_julia.
  unfold czero.
  rewrite (julia_for_mirrored x y y' _ Hy (@zero B64Arith) (@zero B64Arith)
             (@zero B64Arith)); [reflexivity|].
  now right.
Qed.

(** C8, as the code has it.  Two rows of the image of [mandelbrot_set]
    whose sampled ordinates are mirrored, the one the opposite of the
    other, hold the same value in every column: the update [z * z + c], as
    binary64 computes it, commutes with complex conjugation. *)
Theorem mandelbrot_set_reflection (xmin xmax ymin ymax : spec_float)
    (width height max_iter : Z) (r1 r2 : list spec_float) (img : array2)
    (i i' j : nat) (y y' : spec_float) :
  mandelbrot_set (A := B64Arith) junk xmin xmax ymin ymax
    width height max_iter = Ok (r1, r2, img) ->
  r2 !! i = Some y -> r2 !! i' = Some y' -> mirrored y y' ->
  (j < Z.to_nat width)%nat ->
  exists v, cell img i j = Some v /\ cell img i' j = Some v.
Proof.
  intros E Hy Hy' Hm Hj.
  destruct (Z.lt_ge_cases width 0) as [Hw|Hw];
    [rewrite mandelbrot_set_negative in E by lia; discriminate|].
  destruct (Z.lt_ge_cases height 0) as [Hh|Hh];
    [rewrite mandelbrot_set_negative in E by lia; discriminate|].
  destruct (mandelbrot_set_spec (A := B64Arith) junk xmin xmax ymin ymax
              width height max_iter Hw Hh)
    as (r1' & r2' & img' & _ & _ & L1 & _ & E' & _ & Hc).
  rewrite E in E'. injection E' as <- <- <-.
  change (@float B64Arith) with spec_float in *.
  destruct (lookup_lt_is_Some_2 r1 j) as [x Hx]; [lia|].
  exists (uint32 (mandelbrot (Complex (A := B64Arith) x y) max_iter)).
  split; [exact (Hc i j x y Hx Hy)|].
  rewrite (Hc i' j x y' Hx Hy'). now rewrite (mandelbrot_mirrored x y y').
Qed.

(** *** The first update *)

(** The first update adds [c] to a zero, which can change the sign of a
    zero of [c] and nothing else; the magnitude test does not see it. *)
Lemma abs_gt_first_update (c : complex B64Arith) (r : Z) :
  abs_gt (step c czero) r = abs_gt c r.
Proof.
  destruct c as [cr ci]. unfold abs_gt, step, cadd, cmul, czero, zero.
  cbn [real imag add sub mul of_int hypot_gt B64Arith].
  unfold b64_hypot_gt. f_equal.
  destruct cr as [[]|[]| |[] mr er], ci as [[]|[]| |[] mi ei]; reflexivity.
Qed.

(** In binary64 too a parameter that passes the test gets the result 1. *)
Lemma mandelbrot_outside_disk_binary64 (c : complex B64Arith)
    (max_iter : Z) :
  abs_gt c 2 = true -> 1 <= max_iter -> mandelbrot c max_iter = 1.
Proof.
  intros Hc Hm. unfold mandelbrot.
  rewrite mandelbrot_for_julia, (range_first max_iter Hm).
  cbn [julia_boundary_for].
  change (abs_gt (czero (A := B64Arith)) 2) with false. cbv iota.
  destruct (Z.to_nat max_iter - 1)%nat as [|k] eqn:Ek;
    cbn [seq map julia_boundary_for].
  - lia.
  - now rewrite abs_gt_first_update, Hc.
Qed.

(** *** Opposite points *)

Lemma abs_gt_opposite (x y : spec_float) (r : Z) :
  abs_gt (Complex (A := B64Arith) (SFopp x) (SFopp y)) r
  = abs_gt (Complex (A := B64Arith) x y) r.
Proof.
  unfold abs_gt. cbn [real imag hypot_gt B64Arith]. unfold b64_hypot_gt.
  f_equal.
  destruct x as [sx|sx| |sx mx ex], y as [sy|sy| |sy my ey]; reflexivity.
Qed.

(** The update [z * z + c] takes opposite points to the same point. *)
Lemma step_opposite (c : complex B64Arith) (x y : spec_float) :
  step c (Complex (A := B64Arith) (SFopp x) (SFopp y))
  = step c (Complex (A := B64Arith) x y).
Proof.
  unfold step, cadd, cmul. cbn [real imag add sub mul B64Arith].
  now rewrite !SFmul_opp_opp.
Qed.

Lemma julia_boundary_opposite (c : complex B64Arith) (x y : spec_float)
    (max_iter : Z) :
  julia_boundary c (Complex (A := B64Arith) (SFopp x) (SFopp y)) max_iter
  = julia_boundary c (Complex (A := B64Arith) x y) max_iter.
Proof.
  unfold julia_boundary. destruct (range max_iter) as [|n ns];
    cbn [julia_boundary_for]; [reflexivity|].
  now rewrite abs_gt_opposite, step_opposite.
Qed.

(** X14. Two cells of the image of [julia_set_boundary] whose sample
    points are opposite hold the same value, whatever the parameter [c]. *)
Theorem julia_set_boundary_half_turn (c : complex B64Arith)
    (xmin xmax ymin ymax : spec_float) (width height max_iter : Z)
    (r1 r2 : list spec_float) (img : array2) (i i' j j' : nat)
    (x y : spec_float) :
  julia_set_boundary (A := B64Arith) junk c xmin xmax ymin ymax
    width height max_iter = Ok (r1, r2, img) ->
  r1 !! j = Some x -> r1 !! j' = Some (SFopp x) ->
  r2 !! i = Some y -> r2 !! i' = Some (SFopp y) ->
  exists v, cell img i j = Some v /\ cell img i' j' = Some v.
Proof.
  intros E Hx Hx' Hy Hy'.
  destruct (Z.lt_ge_cases width 0) as [Hw|Hw];
    [rewrite julia_set_boundary_negative in E by lia; discriminate|].
  destruct (Z.lt_ge_cases height 0) as [Hh|Hh];
    [rewrite julia_set_boundary_negative in E by lia; discriminate|].
  destruct (julia_set_boundary_spec (A := B64Arith) junk c
              xmin xmax ymin ymax width height max_iter Hw Hh)
    as (r1' & r2' & img' & _ & _ & _ & _ & E' & _ & Hc).
  rewrite E in E'. injection E' as <- <- <-.
  eexists. split; [exact (Hc i j x y Hx Hy)|].
  rewrite (Hc i' j' _ _ Hx' Hy'). now rewrite julia_boundary_opposite.
Qed.

(** *** A grid of one pixel *)

Lemma sample_one_pixel (start stop : spec_float) :
  sample (A := B64Arith) start stop 1 0 = nan.
Proof.
  unfold sample. cbn [add sub mul div of_int B64Arith].
  change (SFdiv 53 1024 (b64_of_int (Z.of_nat 0)) (b64_of_int (1 - 1)))
    with S754_nan.
  destruct (SFsub 53 1024 stop start) as [s|s| |s m e], start as [t|t| |t n f];
    reflexivity.
Qed.

Lemma julia_for_nan (c : complex B64Arith) (ns : list Z) :
  real c = nan -> imag c = nan ->
  julia_boundary_for c (Complex (A := B64Arith) nan nan) ns = None.
Proof.
  destruct c as [cr ci]. cbn [real imag]. intros -> ->.
  induction ns as [|n ns IH]; [reflexivity|exact IH].
Qed.

(** A parameter that is not a number never passes the test. *)
Lemma mandelbrot_nan (max_iter : Z) :
  mandelbrot (Complex (A := B64Arith) nan nan) max_iter = max_iter.
Proof.
  unfold mandelbrot. rewrite mandelbrot_for_julia.
  destruct (range max_iter) as [|n ns]; [reflexivity|].
  change (julia_boundary_for (Complex (A := B64Arith) nan nan) czero (n :: ns))
    with (julia_boundary_for (Complex (A := B64Arith) nan nan)
            (Complex (A := B64Arith) nan nan) ns).
  now rewrite julia_for_nan.
Qed.

(** X8. A grid of one pixel has no sample point: the quotient [0 / 0]
    makes both coordinates NaN whatever the region, no magnitude test
    passes, and the one cell holds the budget. *)
Theorem mandelbrot_set_one_pixel (xmin xmax ymin ymax : spec_float)
    (max_iter : Z) :
  mandelbrot_set (A := B64Arith) junk xmin xmax ymin ymax 1 1 max_iter
  = Ok ([nan], [nan], [[uint32 max_iter]]).
Proof.
  destruct (mandelbrot_set_spec (A := B64Arith) junk xmin xmax ymin ymax
              1 1 max_iter ltac:(lia) ltac:(lia))
    as (r1 & r2 & img & E1 & E2 & _ & _ & E & [Hl Hr] & Hc).
  rewrite E.
  pose proof (linspace_lookup (A := B64Arith) xmin xmax 1 r1 O
                ltac:(lia) E1) as Hx.
  pose proof (linspace_lookup (A := B64Arith) ymin ymax 1 r2 O
                ltac:(lia) E2) as Hy.
  rewrite sample_one_pixel in Hx, Hy.
  pose proof (Hc O O nan nan Hx Hy) as H00. rewrite mandelbrot_nan in H00.
  injection E1 as <-. injection E2 as <-.
  destruct img as [|row [|]]; try discriminate.
  apply Forall_cons in Hr. destruct Hr as [Hrow _].
  destruct row as [|v [|]]; try discriminate.
  unfold cell in H00. simpl in H00. injection H00 as ->.
  simpl in Hx, Hy. injection Hx as Hx. injection Hy as Hy.
  now rewrite Hx, Hy.
Qed.

End Binary64.

(** ** Further runs on concrete inputs *)

Section MoreRuns.
Import MandelbrotJuliaApp.
Local Open Scope Z_scope.

Lemma mandelbrot_smaller_budget_witness :
  0 <= 3 <= 5 /\ mandelbrot three 3 = Z.min (mandelbrot three 5) 3.
Proof.
  split; [lia|]. apply (mandelbrot_smaller_budget three 5 3). lia.
Defined.

Lemma julia_boundary_smaller_budget_witness :
  0 <= 2 <= 5 /\
  julia_boundary origin three 2 =
  if (0 <=? julia_boundary origin three 5)
     && (julia_boundary origin three 5 <? 2)
  then julia_boundary origin three 5 else -1.
Proof.
  split; [lia|]. apply (julia_boundary_smaller_budget origin three 5 2). lia.
Defined.

Lemma evaluators_without_budget_witness :
  -3 <= 0 /\ mandelbrot three (-3) = -3 /\ julia_boundary origin three (-3) = -1.
Proof.
  split; [lia|]. apply (evaluators_without_budget three three (-3)). lia.
Defined.


Lemma mandelbrot_set_cells_witness :
  exists r1 r2 img,
    mandelbrot_set sevens (q (-2) 1) (q 2 1) (q (-2) 1) (q 2 1) 3 3 6
      = Ok (r1, r2, img) /\
    length r1 = Z.to_nat 3 /\ length r2 = Z.to_nat 3 /\
    shape (Z.to_nat 3) (Z.to_nat 3) img /\
    forall i j, (i < Z.to_nat 3)%nat -> (j < Z.to_nat 3)%nat ->
      exists x y, r1 !! j = Some x /\ r2 !! i = Some y /\
        cell img i j = Some (mandelbrot (Complex x y) 6 mod 2 ^ 32).
Proof.
  apply (mandelbrot_set_cells (A := QcArith) sevens
           (q (-2) 1) (q 2 1) (q (-2) 1) (q 2 1) 3 3 6); lia.
Defined.

Lemma click_shows_julia_set_witness :
  exists img,
    image_of (julia_set_boundary sevens (Complex (q 1 1) (q 0 1))
                (sub (of_int 0) (of_int 2)) (add (of_int 0) (of_int 2))
                (sub (of_int 0) (of_int 2)) (add (of_int 0) (of_int 2))
                (width (self small_viewer)) (height (self small_viewer))
                (max_iter (self small_viewer)))
      = Some img /\
    shape (Z.to_nat (height (self small_viewer)))
          (Z.to_nat (width (self small_viewer))) img /\
    onclick sevens small_viewer
      (Event (Some ax1) (Some (q 1 1)) (Some (q 0 1))) =
      (None,
       Viewer (set_c (self small_viewer) (Complex (q 1 1) (q 0 1)))
         (gui small_viewer ++
          [clear ax2;
           imshow ax2 img
             (sub (of_int 0) (of_int 2), add (of_int 0) (of_int 2),
              sub (of_int 0) (of_int 2), add (of_int 0) (of_int 2)) magma;
           set_title ax2 (Julia_Set_for (Complex (q 1 1) (q 0 1))); draw])).
Proof.
  apply (click_shows_julia_set (A := QcArith) sevens small_viewer
           (Event (A := QcArith) (Some ax1) (Some (q 1 1)) (Some (q 0 1)))
           (q 1 1) (q 0 1)).
  - reflexivity.
  - reflexivity.
  - reflexivity.
  - simpl. lia.
  - simpl. lia.
Defined.


Lemma grid_sampling_witness :
  exists r1 r2 img img',
    mandelbrot_set (A := B64Arith) sevens
      (f64 (-219) 100) (f64 208 100) (f64 (-1) 1) (f64 1 1) 2 3 6
      = Ok (r1, r2, img) /\
    julia_set_boundary (A := B64Arith) sevens
      (Complex (A := B64Arith) (f64 0 1) (f64 0 1))
      (f64 (-219) 100) (f64 208 100) (f64 (-1) 1) (f64 1 1) 2 3 6
      = Ok (r1, r2, img') /\
    length r1 = Z.to_nat 2 /\ length r2 = Z.to_nat 3 /\
    shape (Z.to_nat 3) (Z.to_nat 2) img /\
    shape (Z.to_nat 3) (Z.to_nat 2) img' /\
    forall i j, (i < Z.to_nat 3)%nat -> (j < Z.to_nat 2)%nat ->
      let x := sample (A := B64Arith) (f64 (-219) 100) (f64 208 100) 2 j in
      let y := sample (A := B64Arith) (f64 (-1) 1) (f64 1 1) 3 i in
      r1 !! j = Some x /\ r2 !! i = Some y /\
      cell img i j = Some (mandelbrot (Complex (A := B64Arith) x y) 6) /\
      cell img' i j =
        Some (julia_pixel
                (julia_boundary (Complex (A := B64Arith) (f64 0 1) (f64 0 1))
                   (Complex (A := B64Arith) x y) 6)).
Proof.
  apply (grid_sampling (A := B64Arith) sevens
           (Complex (A := B64Arith) (f64 0 1) (f64 0 1))
           (f64 (-219) 100) (f64 208 100) (f64 (-1) 1) (f64 1 1) 2 3 6); lia.
Defined.

(** C2 fails on the code.  On the 3 by 3 grid over [-2, 2] x [-2, 2], with
    [c = 0] and a budget of 4, the centre does not escape: the result is -1
    and the cell of [julia_set_boundary] holds 0.  And of the two samples
    from -2.19 to 2.08 the last one is 2.0799999999999996, the float below
    2.08. *)
Lemma grid_sampling_as_stated_fails :
  (let c := Complex (A := B64Arith) (f64 0 1) (f64 0 1) in
   julia_set_boundary (A := B64Arith) sevens c
     (f64 (-2) 1) (f64 2 1) (f64 (-2) 1) (f64 2 1) 3 3 4
   = Ok ([f64 (-2) 1; f64 0 1; f64 2 1], [f64 (-2) 1; f64 0 1; f64 2 1],
         [[0; 1; 0]; [1; 0; 1]; [0; 1; 0]]) /\
   julia_boundary c (Complex (A := B64Arith) (f64 0 1) (f64 0 1)) 4 = -1 /\
   cell [[0; 1; 0]; [1; 0; 1]; [0; 1; 0]] 1 1 = Some 0) /\
  (mandelbrot_set (A := B64Arith) sevens
     (f64 (-219) 100) (f64 208 100) (f64 (-1) 1) (f64 1 1) 2 2 3
   = Ok ([f64 (-219) 100; S754_finite false 4683743612465315 (-51)],
         [f64 (-1) 1; f64 1 1], [[1; 1]; [1; 1]]) /\
   f64 208 100 = S754_finite false 4683743612465316 (-51)).
Proof. vm_compute. repeat split; reflexivity. Defined.

Lemma mandelbrot_set_reflection_witness :
  exists v, cell [[1; 2; 1]; [6; 6; 2]; [1; 2; 1]] 0 1 = Some v /\
            cell [[1; 2; 1]; [6; 6; 2]; [1; 2; 1]] 2 1 = Some v.
Proof.
  apply (mandelbrot_set_reflection sevens
           (f64 (-2) 1) (f64 2 1) (f64 (-2) 1) (f64 2 1) 3 3 6
           [f64 (-2) 1; f64 0 1; f64 2 1] [f64 (-2) 1; f64 0 1; f64 2 1]
           [[1; 2; 1]; [6; 6; 2]; [1; 2; 1]] 0 2 1
           (f64 (-2) 1) (f64 2 1)).
  - vm_compute. reflexivity.
  - reflexivity.
  - reflexivity.
  - left. reflexivity.
  - simpl. lia.
Defined.

(** C8 fails on the code.  On the grid of 10 rows and 3 columns over
    [-1, 1] x [-1.8, 1.8] the ordinate of row 2 is -1 and that of row 7 is
    1.0000000000000002; with a budget of 48 the parameter [-i] of row 2
    does not escape and the parameter of row 7 escapes at iteration 47. *)
Lemma mandelbrot_set_reflection_fails :
  let img := [[1; 2; 1]; [2; 2; 2]; [3; 48; 2]; [4; 48; 2]; [48; 48; 2];
              [48; 48; 2]; [4; 48; 2]; [3; 47; 2]; [2; 2; 2]; [1; 2; 1]] in
  f64 (-18) 10 = SFopp (f64 18 10) /\
  mandelbrot_set (A := B64Arith) sevens
    (f64 (-1) 1) (f64 1 1) (f64 (-18) 10) (f64 18 10) 3 10 48
  = Ok ([f64 (-1) 1; f64 0 1; f64 1 1],
        [f64 (-18) 10;
         S754_finite true 6305039478318695 (-52);
         f64 (-1) 1;
         S754_finite true 5404319552844596 (-53);
         S754_finite true 7205759403792800 (-55);
         S754_finite false 7205759403792792 (-55);
         S754_finite false 5404319552844594 (-53);
         S754_finite false 4503599627370497 (-52);
         S754_finite false 6305039478318693 (-52);
         f64 18 10],
        img) /\
  f64 1 1 = S754_finite false 4503599627370496 (-52) /\
  cell img 2 1 = Some 48 /\ cell img (10 - 1 - 2) 1 = Some 47.
Proof. vm_compute. repeat split; reflexivity. Defined.

(** A parameter just outside the circle of radius 2 whose computed
    magnitude is 2: it fails the test at counter 1 and passes the next. *)
Lemma mandelbrot_just_outside_disk :
  let c := Complex (A := B64Arith) (f64 2 1) (f64 1 (2 ^ 30)) in
  abs_gt c 2 = false /\ mandelbrot c 5 = 2.
Proof. vm_compute. split; reflexivity. Qed.

Lemma julia_set_boundary_half_turn_witness :
  exists v, cell [[1; 0; 2]; [1; 2; 2]; [2; 2; 1]; [2; 0; 1]] 0 0 = Some v /\
            cell [[1; 0; 2]; [1; 2; 2]; [2; 2; 1]; [2; 0; 1]] 3 2 = Some v.
Proof.
  apply (julia_set_boundary_half_turn sevens
           (Complex (A := B64Arith) (f64 1 1) (f64 1 2))
           (f64 (-1) 1) (f64 1 1) (f64 (-1) 1) (f64 1 1) 3 4 4
           [f64 (-1) 1; f64 0 1; f64 1 1]
           [f64 (-1) 1; S754_finite true 6004799503160662 (-54);
            S754_finite false 6004799503160660 (-54); f64 1 1]
           [[1; 0; 2]; [1; 2; 2]; [2; 2; 1]; [2; 0; 1]] 0 3 0 2
           (f64 (-1) 1) (f64 (-1) 1)).
  - vm_compute. reflexivity.
  - reflexivity.
  - reflexivity.
  - reflexivity.
  - reflexivity.
Defined.


End MoreRuns.
